(** * Forecast with Cold Start Items: the notebook as a sequence of cells

    The notebook `notebooks/advanced/Forecast with Cold Start Items` is a
    linear script: every code cell issues a few calls on boto3 clients,
    stores the answers in module-level variables and asserts that waits
    succeeded.  We embed it as a list of cells, each cell a computation in
    a small monad with
      - the Python globals (a dictionary from names to values),
      - the trace of client calls issued so far, with the service's answers,
      - exceptions, which stop the run.
    The remote service is an arbitrary oracle: the theorems quantify over
    every answer it can give. *)

From stdpp Require Import gmap strings list fin_maps.
From Stdlib Require Import Ascii String.

Open Scope string_scope.
Set Warnings "-register-all".

(** ** Python values held by the notebook *)

Inductive Outcome := Success | Failure | Timeout.

Inductive PyVal :=
| VNone
| VBool (b : bool)
| VInt (z : Z)
| VStr (s : string)
| VList (l : list PyVal)
| VDict (d : list (string * PyVal))
| VStatus (o : Outcome).

Inductive Exn :=
| AssertionError (msg : string)
| NameError (name : string)
| KeyError (key : string)
| TypeError
| ParamValidationError
| ClientError (code : string)
| S3UploadFailedError (code : string)
| BotoCoreError (name : string)
| TimeoutError (msg : string).

Inductive Res (A : Type) :=
| Ret (a : A)
| Raise (e : Exn).
Arguments Ret {A} a.
Arguments Raise {A} e.

(** ** Client calls *)

Inductive Call :=
| NewSession (region_name : string)
| NewClient (service_name : string)
| GetOrCreateRoleArn
| StsGetCallerIdentity
| S3UploadFile (Filename Bucket Key : string)
| CreateDatasetGroup (Domain DatasetGroupName : string) (DatasetArns : list string)
| DescribeDatasetGroup (DatasetGroupArn : string)
| UpdateDatasetGroup (DatasetGroupArn : string) (DatasetArns : list string)
| CreateDataset (Domain DatasetType DatasetName : string) (DataFrequency : option string)
                (Schema : list (string * string))
| DescribeDataset (DatasetArn : string)
| CreateDatasetImportJob (DatasetImportJobName DatasetArn Path RoleArn : string)
                         (TimestampFormat : option string)
| DescribeDatasetImportJob (DatasetImportJobArn : string)
| CreatePredictor (PredictorName AlgorithmArn : string) (ForecastHorizon : Z)
                  (PerformAutoML PerformHPO : bool)
                  (DatasetGroupArn ForecastFrequency : string)
| DescribePredictor (PredictorArn : string)
| CreateForecast (ForecastName PredictorArn : string)
| DescribeForecast (ForecastArn : string)
| QueryForecast (ForecastArn : string) (Filters : list (string * string))
| CreateForecastExportJob (ForecastExportJobName ForecastArn Path RoleArn : string)
| DescribeForecastExportJob (ForecastExportJobArn : string)
| DeleteForecastExportJob (ForecastExportJobArn : string)
| DeleteForecast (ForecastArn : string)
| DeletePredictor (PredictorArn : string)
| DeleteDatasetImportJob (DatasetImportJobArn : string)
| DeleteDataset (DatasetArn : string)
| DeleteDatasetGroup (DatasetGroupArn : string).

(** The answer to a call: a response dictionary, or a failure.  For a
    request, [code] is the error code of the service; for the construction
    of a session or a client, which sends no request, it names the error
    that botocore raises (InvalidRegionError, UnknownServiceError, ...). *)
Inductive Response :=
| Reply (body : list (string * PyVal))
| Fault (code : string).

Definition Event : Type := Call * Response.

(** The service stands for everything outside the notebook: it sees the
    history of the session and the call, and decides the answer. *)
Definition Service : Type := list Event -> Call -> Response.

Record Env := {
  svc : Service;
  bucket_widget : string;     (* text_widget_bucket.value *)
  region_widget : string;     (* text_widget_region.value *)
  wait_budget : nat;          (* probes util.wait may issue *)
  delete_budget : nat         (* attempts util.wait_till_delete may issue *)
}.

Record State := {
  globals : gmap string PyVal;
  trace : list Event
}.

(** The dictionary of globals: no name bound, binding a name, looking a
    name up. *)
Definition no_names : gmap string PyVal := ∅.

Definition bind_name (x : string) (v : PyVal) (G : gmap string PyVal) :
    gmap string PyVal :=
  <[x := v]> G.

Definition lookup_name (x : string) (G : gmap string PyVal) : option PyVal :=
  G !! x.

Definition init_state : State := {| globals := no_names; trace := [] |}.

(** ** The monad of cells *)

Definition M (A : Type) : Type := Env -> State -> Res A * State.

Definition ret {A} (a : A) : M A := fun _ st => (Ret a, st).

Definition raise {A} (e : Exn) : M A := fun _ st => (Raise e, st).

Definition bind {A B} (m : M A) (k : A -> M B) : M B :=
  fun env st =>
    match m env st with
    | (Ret a, st') => k a env st'
    | (Raise e, st') => (Raise e, st')
    end.

Declare Scope cell_scope.
Delimit Scope cell_scope with cell.
Notation "x <- m ;; k" := (bind m (fun x => k))
  (at level 100, m at next level, right associativity) : cell_scope.
Notation "m ;; k" := (bind m (fun _ => k))
  (at level 100, right associativity) : cell_scope.
Open Scope cell_scope.

Definition lift {A} (r : Res A) : M A := fun _ st => (r, st).

(** Reading and binding a module-level name. *)
Definition get (x : string) : M PyVal :=
  fun _ st =>
    match lookup_name x (globals st) with
    | Some v => (Ret v, st)
    | None => (Raise (NameError x), st)
    end.

Definition set (x : string) (v : PyVal) : M unit :=
  fun _ st => (Ret tt, {| globals := bind_name x v (globals st); trace := trace st |}).

(** The exception a failed call raises: a request that the service
    refuses raises botocore's ClientError with the error code; upload_file
    wraps it into boto3's S3UploadFailedError; the construction of a session
    or a client raises a botocore error of its own. *)
Definition failure_of (c : Call) (code : string) : Exn :=
  match c with
  | S3UploadFile _ _ _ => S3UploadFailedError code
  | NewSession _ | NewClient _ => BotoCoreError code
  | _ => ClientError code
  end.

(** A call: the service answers, the exchange is recorded, and a failure
    is raised as an exception. *)
Definition call (c : Call) : M PyVal :=
  fun env st =>
    let r := svc env (trace st) c in
    let st' := {| globals := globals st; trace := trace st ++ [(c, r)] |} in
    match r with
    | Reply body => (Ret (VDict body), st')
    | Fault code => (Raise (failure_of c code), st')
    end.

Definition widget_value (w : Env -> string) : M PyVal :=
  fun env st => (Ret (VStr (w env)), st).

Definition budget (b : Env -> nat) : M nat :=
  fun env st => (Ret (b env), st).

(** ** Pure operations on values *)

Fixpoint assoc (k : string) (d : list (string * PyVal)) : option PyVal :=
  match d with
  | [] => None
  | (k', v) :: d' => if String.eqb k k' then Some v else assoc k d'
  end.

(** [v[k]] *)
Definition py_getitem (v : PyVal) (k : string) : Res PyVal :=
  match v with
  | VDict d =>
      match assoc k d with
      | Some x => Ret x
      | None => Raise (KeyError k)
      end
  | _ => Raise TypeError
  end.

(** Truth value, as [assert] and [if] take it. *)
Definition truthy (v : PyVal) : bool :=
  match v with
  | VNone => false
  | VBool b => b
  | VInt z => negb (Z.eqb z 0)
  | VStr s => negb (String.eqb s "")
  | VList l => match l with [] => false | _ => true end
  | VDict d => match d with [] => false | _ => true end
  | VStatus o => match o with Success => true | _ => false end
  end.

Definition py_assert (v : PyVal) (msg : string) : M unit :=
  if truthy v then ret tt else raise (AssertionError msg).

(** A keyword argument that the client validates to be a string before
    anything is sent. *)
Definition as_str (v : PyVal) : Res string :=
  match v with
  | VStr s => Ret s
  | _ => Raise ParamValidationError
  end.

Fixpoint as_str_list (l : list PyVal) : Res (list string) :=
  match l with
  | [] => Ret []
  | v :: l' =>
      match as_str v, as_str_list l' with
      | Ret s, Ret ss => Ret (s :: ss)
      | Raise e, _ => Raise e
      | _, Raise e => Raise e
      end
  end.

Definition as_list (v : PyVal) : Res (list PyVal) :=
  match v with
  | VList l => Ret l
  | _ => Raise ParamValidationError
  end.

(** The text a value contributes to an f-string. *)
Definition py_str (v : PyVal) : string :=
  match v with
  | VStr s => s
  | VBool true => "True"
  | VBool false => "False"
  | VNone => "None"
  | _ => ""
  end.

Definition lower_ascii (a : ascii) : ascii :=
  let n := nat_of_ascii a in
  if (Nat.leb 65 n && Nat.leb n 90)%bool then ascii_of_nat (n + 32) else a.

Fixpoint lower (s : string) : string :=
  match s with
  | EmptyString => EmptyString
  | String a s' => String (lower_ascii a) (lower s')
  end.

(** ** The waiters of notebooks/common/util.py *)

Definition success_set : list string := ["ACTIVE"].
Definition failure_set : list string := ["CREATE_FAILED"].

Definition in_set (v : PyVal) (statuses : list string) : bool :=
  match v with
  | VStr s => existsb (String.eqb s) statuses
  | _ => false
  end.

(** Modelled from the spec: util.wait is defined in notebooks/common/util.py,
    which is not among the sources.  Spec 4.1: given a zero-argument probe
    returning a status-bearing response, recheck until the status is a
    success-terminal value, a failure-terminal value, or the maximum wait
    budget is exhausted; the three outcomes are told apart.  The budget is
    counted in probes (the deadline divided by the fixed polling interval);
    the sleep between probes leaves no mark on the state. *)
Fixpoint wait_loop (probe : M PyVal) (n : nat) : M Outcome :=
  match n with
  | 0 => ret Timeout
  | S n' =>
      r <- probe ;;
      status <- lift (py_getitem r "Status") ;;
      if in_set status success_set then ret Success
      else if in_set status failure_set then ret Failure
      else wait_loop probe n'
  end.

Definition util_wait (probe : M PyVal) : M PyVal :=
  n <- budget wait_budget ;;
  o <- wait_loop probe n ;;
  ret (VStatus o).

(** The error a call raises on a resource that does not exist (any more). *)
Definition is_not_found (e : Exn) : bool :=
  match e with
  | ClientError code => String.eqb code "ResourceNotFoundException"
  | _ => false
  end.

(** Modelled from the spec: util.wait_till_delete is defined in
    notebooks/common/util.py, which is not among the sources.  The notebook
    passes it the delete call itself and says that it waits for the
    asynchronous deletion; following the waiter contract of spec 4.1, the
    callback is invoked again until the service answers that the resource no
    longer exists; any other client error propagates, and exhausting the
    budget raises a timeout. *)
Fixpoint delete_loop (callback : M PyVal) (n : nat) : M unit :=
  match n with
  | 0 => raise (TimeoutError "Forecast resource deletion timed-out.")
  | S n' =>
      fun env st =>
        match callback env st with
        | (Ret _, st') => delete_loop callback n' env st'
        | (Raise e, st') =>
            if is_not_found e then (Ret tt, st') else (Raise e, st')
        end
  end.

Definition util_wait_till_delete (callback : M PyVal) : M unit :=
  n <- budget delete_budget ;;
  delete_loop callback n.

(** ** The code cells

    Cells are numbered by their position in the notebook (markdown cells
    included).  Cells that only import modules, build widgets, print, read
    CSV files into data frames or plot issue no client call; of those only
    the assignments a later cell reads are kept. *)

Definition get_str (x : string) : M string :=
  v <- get x ;; lift (as_str v).

(** Cell 5 *)
Definition cell_5 : M unit :=
  b <- widget_value bucket_widget ;;
  set "bucketName" b ;;
  b <- get "bucketName" ;;
  py_assert b "bucketName not set." ;;
  r <- widget_value region_widget ;;
  set "region" r ;;
  r <- get "region" ;;
  py_assert r "region not set.".

(** Cell 6 *)
Definition cell_6 : M unit :=
  r <- get_str "region" ;;
  s <- call (NewSession r) ;;
  set "session" s ;;
  get "session" ;;
  c <- call (NewClient "forecast") ;;
  set "forecast" c ;;
  get "session" ;;
  c <- call (NewClient "forecastquery") ;;
  set "forecast_query" c.

(** Cell 7: util.get_or_create_role_arn looks the role up or creates it
    through the identity service and returns its ARN. *)
Definition cell_7 : M unit :=
  r <- call GetOrCreateRoleArn ;;
  a <- lift (py_getitem r "Arn") ;;
  set "role_arn" a.

(** Cell 9 (the decompression itself is local) *)
Definition cell_9 : M unit :=
  set "zipLocalFilePath" (VStr "data/test.csv.gz") ;;
  set "localFilePath" (VStr "data/test.csv").

(** Cell 15 (reading the CSV is local) *)
Definition cell_15 : M unit :=
  set "localItemMetaDataFilePath" (VStr "data/itemMetaData.csv").

(** Cell 18 *)
Definition cell_18 : M unit :=
  get "session" ;;
  c <- call (NewClient "s3") ;;
  set "s3" c.

(** Cell 19 *)
Definition cell_19 : M unit :=
  call (NewClient "sts") ;;
  r <- call StsGetCallerIdentity ;;
  set "accountId"
      (match py_getitem r "Account" with Ret v => v | Raise _ => VNone end).

(** Cell 20 *)
Definition cell_20 : M unit :=
  set "targetTimeseriesDatakey" (VStr "cold-start/test.csv") ;;
  get "s3" ;;
  f <- get_str "localFilePath" ;;
  b <- get_str "bucketName" ;;
  k <- get "targetTimeseriesDatakey" ;;
  call (S3UploadFile f b (py_str k)) ;;
  ret tt.

(** Cell 21 *)
Definition cell_21 : M unit :=
  set "itemMetaDatakey" (VStr "cold-start/itemMetaData.csv") ;;
  get "s3" ;;
  f <- get_str "localItemMetaDataFilePath" ;;
  b <- get_str "bucketName" ;;
  k <- get "itemMetaDatakey" ;;
  call (S3UploadFile f b (py_str k)) ;;
  ret tt.

(** Cell 22 *)
Definition cell_22 : M unit :=
  set "project" (VStr "coldstart_demo").

(** Cell 24 *)
Definition cell_24 : M unit :=
  set "freq" (VStr "H") ;;
  set "forecast_horizon" (VInt 48) ;;
  set "timestamp_format" (VStr "yyyy-MM-dd HH:mm:ss") ;;
  set "delimiter" (VStr ",").

(** Cell 26 *)
Definition cell_26 : M unit :=
  p <- get "project" ;;
  set "dataset_group" (VStr (py_str p ++ "_grp")) ;;
  set "dataset_arns" (VList []) ;;
  get "forecast" ;;
  g <- get_str "dataset_group" ;;
  l <- get "dataset_arns" ;;
  l <- lift (as_list l) ;;
  arns <- lift (as_str_list l) ;;
  r <- call (CreateDatasetGroup "CUSTOM" g arns) ;;
  set "create_dataset_group_response" r.

(** Cell 27 (prints the name of the group) *)
Definition cell_27 : M unit :=
  get "dataset_group" ;;
  ret tt.

(** Cell 28 *)
Definition cell_28 : M unit :=
  r <- get "create_dataset_group_response" ;;
  a <- lift (py_getitem r "DatasetGroupArn") ;;
  set "dataset_group_arn" a.

(** Cells 29 and 50 *)
Definition cell_29 : M unit :=
  get "forecast" ;;
  a <- get_str "dataset_group_arn" ;;
  call (DescribeDatasetGroup a) ;;
  ret tt.

(** Cell 32 *)
Definition cell_32 : M unit :=
  p <- get "project" ;;
  set "ts_dataset_name" (VStr (py_str p ++ "_ts")) ;;
  get "ts_dataset_name" ;;
  ret tt.

Definition attribute (name type : string) : PyVal :=
  VDict [("AttributeName", VStr name); ("AttributeType", VStr type)].

(** Cell 34 *)
Definition ts_schema_val : PyVal :=
  VList [attribute "timestamp" "timestamp";
         attribute "target_value" "float";
         attribute "item_id" "string"].

Definition cell_34 : M unit :=
  set "ts_schema_val" ts_schema_val ;;
  v <- get "ts_schema_val" ;;
  set "ts_schema" (VDict [("Attributes", v)]).

(** The Schema argument as the client sends it: the attributes in their
    order, each with its name and type. *)
Definition as_attribute (v : PyVal) : Res (string * string) :=
  match py_getitem v "AttributeName", py_getitem v "AttributeType" with
  | Ret (VStr n), Ret (VStr t) => Ret (n, t)
  | _, _ => Raise ParamValidationError
  end.

Fixpoint as_attributes (l : list PyVal) : Res (list (string * string)) :=
  match l with
  | [] => Ret []
  | v :: l' =>
      match as_attribute v, as_attributes l' with
      | Ret a, Ret r => Ret (a :: r)
      | Raise e, _ => Raise e
      | _, Raise e => Raise e
      end
  end.

Definition as_schema (v : PyVal) : Res (list (string * string)) :=
  match py_getitem v "Attributes" with
  | Ret (VList l) => as_attributes l
  | _ => Raise ParamValidationError
  end.

(** Cell 35 (prints the name of the dataset) *)
Definition cell_35 : M unit :=
  get "ts_dataset_name" ;;
  ret tt.

(** Cell 36 *)
Definition cell_36 : M unit :=
  get "forecast" ;;
  n <- get_str "ts_dataset_name" ;;
  f <- get_str "freq" ;;
  s <- get "ts_schema" ;;
  s <- lift (as_schema s) ;;
  r <- call (CreateDataset "CUSTOM" "TARGET_TIME_SERIES" n (Some f) s) ;;
  set "response" r.

(** Cell 37 *)
Definition cell_37 : M unit :=
  r <- get "response" ;;
  a <- lift (py_getitem r "DatasetArn") ;;
  set "ts_dataset_arn" a.

(** Cell 38 *)
Definition cell_38 : M unit :=
  get "forecast" ;;
  a <- get_str "ts_dataset_arn" ;;
  call (DescribeDataset a) ;;
  ret tt.

(** Cell 41 *)
Definition cell_41 : M unit :=
  p <- get "project" ;;
  set "item_metadata_dataset_name" (VStr (py_str p ++ "_meta")) ;;
  get "item_metadata_dataset_name" ;;
  ret tt.

(** Cell 43 *)
Definition meta_schema_val : PyVal :=
  VList [attribute "item_id" "string";
         attribute "category" "string"].

Definition cell_43 : M unit :=
  set "meta_schema_val" meta_schema_val ;;
  v <- get "meta_schema_val" ;;
  set "meta_schema" (VDict [("Attributes", v)]).

(** Cell 44 (prints the schema) *)
Definition cell_44 : M unit :=
  get "meta_schema" ;;
  ret tt.

(** Cell 45 *)
Definition cell_45 : M unit :=
  get "forecast" ;;
  n <- get_str "item_metadata_dataset_name" ;;
  s <- get "meta_schema" ;;
  s <- lift (as_schema s) ;;
  r <- call (CreateDataset "CUSTOM" "ITEM_METADATA" n None s) ;;
  set "response" r.

(** Cell 46 *)
Definition cell_46 : M unit :=
  r <- get "response" ;;
  a <- lift (py_getitem r "DatasetArn") ;;
  set "meta_dataset_arn" a.

(** Cell 47 *)
Definition cell_47 : M unit :=
  get "forecast" ;;
  a <- get_str "meta_dataset_arn" ;;
  call (DescribeDataset a) ;;
  ret tt.

(** [l.append(x)] on the list bound to a name *)
Definition append (x : string) (v : PyVal) : M unit :=
  l <- get x ;;
  match l with
  | VList vs => set x (VList (vs ++ [v]))
  | _ => raise TypeError
  end.

(** Cell 49 *)
Definition cell_49 : M unit :=
  set "dataset_arns" (VList []) ;;
  a <- get "ts_dataset_arn" ;;
  append "dataset_arns" a ;;
  a <- get "meta_dataset_arn" ;;
  append "dataset_arns" a ;;
  get "forecast" ;;
  g <- get_str "dataset_group_arn" ;;
  l <- get "dataset_arns" ;;
  l <- lift (as_list l) ;;
  arns <- lift (as_str_list l) ;;
  call (UpdateDatasetGroup g arns) ;;
  ret tt.

(** [status = util.wait(lambda: ...)] followed by [assert status] *)
Definition wait_cell (probe : M PyVal) : M unit :=
  status <- util_wait probe ;;
  set "status" status ;;
  status <- get "status" ;;
  py_assert status "".

(** A code cell is either such a wait on a probe, or any other code. *)
Inductive Cell :=
| Code (body : M unit)
| Await (probe : M PyVal).

Definition run_cell (c : Cell) : M unit :=
  match c with
  | Code body => body
  | Await probe => wait_cell probe
  end.

(** The probes: each lambda resolves the client and the identifier when it
    is invoked. *)
Definition probe_import_job (arn_name : string) : M PyVal :=
  get "forecast" ;;
  a <- get_str arn_name ;;
  call (DescribeDatasetImportJob a).

Definition probe_predictor (arn_name : string) : M PyVal :=
  get "forecast" ;;
  a <- get_str arn_name ;;
  call (DescribePredictor a).

Definition probe_forecast (arn_name : string) : M PyVal :=
  get "forecast" ;;
  a <- get_str arn_name ;;
  call (DescribeForecast a).

Definition probe_export_job (arn_name : string) : M PyVal :=
  get "forecast" ;;
  a <- get_str arn_name ;;
  call (DescribeForecastExportJob a).

(** Cell 52 *)
Definition cell_52 : M unit :=
  get "forecast" ;;
  n <- get_str "dataset_group" ;;
  d <- get_str "ts_dataset_arn" ;;
  b <- get "bucketName" ;;
  k <- get "targetTimeseriesDatakey" ;;
  role <- get_str "role_arn" ;;
  t <- get_str "timestamp_format" ;;
  r <- call (CreateDatasetImportJob n d ("s3://" ++ py_str b ++ "/" ++ py_str k)
                                    role (Some t)) ;;
  set "ts_dataset_import_job_response" r.

(** Cell 53 *)
Definition cell_53 : M unit :=
  r <- get "ts_dataset_import_job_response" ;;
  a <- lift (py_getitem r "DatasetImportJobArn") ;;
  set "ts_dataset_import_job_arn" a.

(** Cell 54 *)
Definition cell_54 : Cell :=
  Await (probe_import_job "ts_dataset_import_job_arn").

(** Cell 56 *)
Definition cell_56 : M unit :=
  get "forecast" ;;
  n <- get_str "dataset_group" ;;
  d <- get_str "meta_dataset_arn" ;;
  b <- get "bucketName" ;;
  k <- get "itemMetaDatakey" ;;
  role <- get_str "role_arn" ;;
  r <- call (CreateDatasetImportJob n d ("s3://" ++ py_str b ++ "/" ++ py_str k)
                                    role None) ;;
  set "meta_dataset_import_job_response" r.

(** Cell 57 *)
Definition cell_57 : M unit :=
  r <- get "meta_dataset_import_job_response" ;;
  a <- lift (py_getitem r "DatasetImportJobArn") ;;
  set "meta_dataset_import_job_arn" a.

(** Cell 58 *)
Definition cell_58 : Cell :=
  Await (probe_import_job "meta_dataset_import_job_arn").

(** Cell 60 *)
Definition cell_60 : M unit :=
  set "algorithm_arn" (VStr "arn:aws:forecast:::algorithm/").

(** [a + b] on strings *)
Definition py_concat (a b : PyVal) : Res PyVal :=
  match a, b with
  | VStr x, VStr y => Ret (VStr (x ++ y))
  | _, _ => Raise TypeError
  end.

(** [s.lower()] *)
Definition py_lower (v : PyVal) : Res PyVal :=
  match v with
  | VStr s => Ret (VStr (lower s))
  | _ => Raise TypeError
  end.

(** Cell 61 *)
Definition cell_61 : M unit :=
  set "algorithm" (VStr "Deep_AR_Plus") ;;
  a <- get "algorithm_arn" ;;
  b <- get "algorithm" ;;
  c <- lift (py_concat a b) ;;
  set "algorithm_arn_deep_ar_plus" c ;;
  p <- get "project" ;;
  b <- get "algorithm" ;;
  l <- lift (py_lower b) ;;
  set "predictor_name_deep_ar" (VStr (py_str p ++ "_" ++ py_str l)).

(** Cell 62 (prints the predictor name) *)
Definition cell_62 : M unit :=
  get "predictor_name_deep_ar" ;;
  ret tt.

Definition as_int (v : PyVal) : Res Z :=
  match v with
  | VInt z => Ret z
  | _ => Raise ParamValidationError
  end.

(** Cell 63 *)
Definition cell_63 : M unit :=
  get "forecast" ;;
  n <- get_str "predictor_name_deep_ar" ;;
  a <- get_str "algorithm_arn_deep_ar_plus" ;;
  h <- get "forecast_horizon" ;;
  h <- lift (as_int h) ;;
  g <- get_str "dataset_group_arn" ;;
  f <- get_str "freq" ;;
  r <- call (CreatePredictor n a h false false g f) ;;
  set "create_predictor_response" r.

(** Cell 64 *)
Definition cell_64 : M unit :=
  r <- get "create_predictor_response" ;;
  a <- lift (py_getitem r "PredictorArn") ;;
  set "predictor_arn_deep_ar" a.

(** Cell 65 *)
Definition cell_65 : Cell :=
  Await (probe_predictor "predictor_arn_deep_ar").

(** Cell 66 *)
Definition cell_66 : M unit :=
  probe_predictor "predictor_arn_deep_ar" ;;
  ret tt.

(** Cell 69 *)
Definition cell_69 : M unit :=
  p <- get "project" ;;
  set "forecast_name_deep_ar" (VStr (py_str p ++ "_deep_ar_plus_2")).

(** Cell 70 *)
Definition cell_70 : M unit :=
  get "forecast" ;;
  n <- get_str "forecast_name_deep_ar" ;;
  p <- get_str "predictor_arn_deep_ar" ;;
  r <- call (CreateForecast n p) ;;
  set "create_forecast_response_deep_ar" r.

(** Cell 71 *)
Definition cell_71 : M unit :=
  r <- get "create_forecast_response_deep_ar" ;;
  a <- lift (py_getitem r "ForecastArn") ;;
  set "forecast_arn_deep_ar" a.

(** Cell 72 *)
Definition cell_72 : Cell :=
  Await (probe_forecast "forecast_arn_deep_ar").

(** Cell 73 *)
Definition cell_73 : M unit :=
  probe_forecast "forecast_arn_deep_ar" ;;
  ret tt.

(** Cell 75 (reading the CSV is local) *)
Definition cell_75 : M unit :=
  set "localColdStartDataFilePath" (VStr "data/coldStartTargetData.csv").

(** Cell 76 *)
Definition cell_76 : M unit :=
  set "coldStartTargetTimeseriesDatakey" (VStr "cold-start/coldStartTargetData.csv").

(** Cell 77 *)
Definition cell_77 : M unit :=
  get "s3" ;;
  f <- get_str "localColdStartDataFilePath" ;;
  b <- get_str "bucketName" ;;
  k <- get "coldStartTargetTimeseriesDatakey" ;;
  call (S3UploadFile f b (py_str k)) ;;
  ret tt.

(** Cell 78 *)
Definition cell_78 : M unit :=
  get "forecast" ;;
  n <- get "dataset_group" ;;
  n <- lift (py_concat n (VStr "_2")) ;;
  n <- lift (as_str n) ;;
  d <- get_str "ts_dataset_arn" ;;
  b <- get "bucketName" ;;
  k <- get "coldStartTargetTimeseriesDatakey" ;;
  role <- get_str "role_arn" ;;
  t <- get_str "timestamp_format" ;;
  r <- call (CreateDatasetImportJob n d ("s3://" ++ py_str b ++ "/" ++ py_str k)
                                    role (Some t)) ;;
  set "ts_cold_start_dataset_import_job_response" r.

(** Cell 79 *)
Definition cell_79 : M unit :=
  r <- get "ts_cold_start_dataset_import_job_response" ;;
  a <- lift (py_getitem r "DatasetImportJobArn") ;;
  set "ts_cold_start_dataset_import_job_arn" a.

(** Cell 80 *)
Definition cell_80 : M unit :=
  probe_import_job "ts_cold_start_dataset_import_job_arn" ;;
  ret tt.

(** Cell 81 *)
Definition cell_81 : Cell :=
  Await (probe_import_job "ts_cold_start_dataset_import_job_arn").

(** Cell 83 *)
Definition cell_83 : M unit :=
  p <- get "project" ;;
  set "forecast_name_deep_ar_2" (VStr (py_str p ++ "_deep_ar_plus_3")).

(** Cell 84 *)
Definition cell_84 : M unit :=
  get "forecast" ;;
  n <- get_str "forecast_name_deep_ar_2" ;;
  p <- get_str "predictor_arn_deep_ar" ;;
  r <- call (CreateForecast n p) ;;
  set "create_forecast_response_deep_ar_2" r.

(** Cell 85 *)
Definition cell_85 : M unit :=
  r <- get "create_forecast_response_deep_ar_2" ;;
  a <- lift (py_getitem r "ForecastArn") ;;
  set "forecast_arn_deep_ar_2" a.

(** Cell 86 *)
Definition cell_86 : Cell :=
  Await (probe_forecast "forecast_arn_deep_ar_2").

(** Cell 87 *)
Definition cell_87 : M unit :=
  probe_forecast "forecast_arn_deep_ar_2" ;;
  ret tt.

(** [list(map(lambda x: x[k], v))] *)
Fixpoint getitems (l : list PyVal) (k : string) : Res (list PyVal) :=
  match l with
  | [] => Ret []
  | x :: l' =>
      match py_getitem x k with
      | Ret y =>
          match getitems l' k with
          | Ret ys => Ret (y :: ys)
          | Raise e => Raise e
          end
      | Raise e => Raise e
      end
  end.

Definition py_map_getitem (v : PyVal) (k : string) : Res PyVal :=
  match v with
  | VList l =>
      match getitems l k with
      | Ret ys => Ret (VList ys)
      | Raise e => Raise e
      end
  | _ => Raise TypeError
  end.

(** Cell 89 (the conversion of the timestamps and the plot are local) *)
Definition cell_89 : M unit :=
  get "forecast_query" ;;
  a <- get_str "forecast_arn_deep_ar_2" ;;
  r <- call (QueryForecast a [("item_id", "client_370")]) ;;
  set "forecast_response_deep_2" r ;;
  r <- get "forecast_response_deep_2" ;;
  f <- lift (py_getitem r "Forecast") ;;
  p <- lift (py_getitem f "Predictions") ;;
  set "fcst" p ;;
  fcst <- get "fcst" ;;
  q <- lift (py_getitem fcst "p10") ;;
  t <- lift (py_map_getitem q "Timestamp") ;;
  set "time_stamp" t ;;
  fcst <- get "fcst" ;;
  q <- lift (py_getitem fcst "p10") ;;
  v <- lift (py_map_getitem q "Value") ;;
  set "p10_fcst" v ;;
  fcst <- get "fcst" ;;
  q <- lift (py_getitem fcst "p50") ;;
  v <- lift (py_map_getitem q "Value") ;;
  set "p50_fcst" v ;;
  fcst <- get "fcst" ;;
  q <- lift (py_getitem fcst "p90") ;;
  v <- lift (py_map_getitem q "Value") ;;
  set "p90_fcst" v.

(** Cell 91 *)
Definition cell_91 : M unit :=
  b <- get "bucketName" ;;
  set "s3_data_path" (VStr ("s3://" ++ py_str b ++ "/")).

(** Cell 92 *)
Definition cell_92 : M unit :=
  p <- get "project" ;;
  set "forecast_export_name_deep_ar"
      (VStr (py_str p ++ "_cold_start_forecast_export_deep_ar_plus")) ;;
  s <- get "s3_data_path" ;;
  n <- get "forecast_export_name_deep_ar" ;;
  set "forecast_export_name_deep_ar_path" (VStr (py_str s ++ "/" ++ py_str n)).

(** Cell 93 *)
Definition cell_93 : M unit :=
  get "forecast" ;;
  n <- get_str "forecast_export_name_deep_ar" ;;
  f <- get_str "forecast_arn_deep_ar_2" ;;
  p <- get_str "forecast_export_name_deep_ar_path" ;;
  role <- get_str "role_arn" ;;
  r <- call (CreateForecastExportJob n f p role) ;;
  set "create_forecast_export_response_deep_ar" r ;;
  r <- get "create_forecast_export_response_deep_ar" ;;
  a <- lift (py_getitem r "ForecastExportJobArn") ;;
  set "forecast_export_arn_deep_ar" a.

(** Cell 94 *)
Definition cell_94 : Cell :=
  Await (probe_export_job "forecast_export_arn_deep_ar").

(** The delete callbacks handed to util.wait_till_delete *)
Definition delete_export_job (arn_name : string) : M PyVal :=
  get "forecast" ;;
  a <- get_str arn_name ;;
  call (DeleteForecastExportJob a).

Definition delete_forecast (arn_name : string) : M PyVal :=
  get "forecast" ;;
  a <- get_str arn_name ;;
  call (DeleteForecast a).

Definition delete_predictor (arn_name : string) : M PyVal :=
  get "forecast" ;;
  a <- get_str arn_name ;;
  call (DeletePredictor a).

Definition delete_dataset_import_job (arn_name : string) : M PyVal :=
  get "forecast" ;;
  a <- get_str arn_name ;;
  call (DeleteDatasetImportJob a).

Definition delete_dataset (arn_name : string) : M PyVal :=
  get "forecast" ;;
  a <- get_str arn_name ;;
  call (DeleteDataset a).

(** Cell 97 *)
Definition cell_97 : M unit :=
  util_wait_till_delete (delete_export_job "forecast_export_arn_deep_ar").

(** Cell 98 *)
Definition cell_98 : M unit :=
  util_wait_till_delete (delete_forecast "forecast_arn_deep_ar") ;;
  util_wait_till_delete (delete_forecast "forecast_arn_deep_ar_2").

(** Cell 99 *)
Definition cell_99 : M unit :=
  util_wait_till_delete (delete_predictor "predictor_arn_deep_ar").

(** Cell 100 *)
Definition cell_100 : M unit :=
  util_wait_till_delete (delete_dataset_import_job "ts_dataset_import_job_arn") ;;
  util_wait_till_delete (delete_dataset_import_job "meta_dataset_import_job_arn") ;;
  util_wait_till_delete (delete_dataset_import_job "ts_cold_start_dataset_import_job_arn").

(** Cell 101 *)
Definition cell_101 : M unit :=
  util_wait_till_delete (delete_dataset "ts_dataset_arn") ;;
  util_wait_till_delete (delete_dataset "meta_dataset_arn").

(** Cell 102 *)
Definition cell_102 : M unit :=
  get "forecast" ;;
  a <- get_str "dataset_group_arn" ;;
  call (DeleteDatasetGroup a) ;;
  ret tt.

(** Cells 2, 4, 10, 11, 13, 17 and 68: imports, widgets, data frames,
    plots and a print of constant text. *)
Definition local_cell : M unit := ret tt.

(** ** The notebook: its code cells in order, with their numbers *)

Definition notebook : list (nat * Cell) :=
  [ (2, Code local_cell); (4, Code local_cell); (5, Code cell_5); (6, Code cell_6); (7, Code cell_7);
    (9, Code cell_9); (10, Code local_cell); (11, Code local_cell); (13, Code local_cell);
    (15, Code cell_15); (17, Code local_cell); (18, Code cell_18); (19, Code cell_19);
    (20, Code cell_20); (21, Code cell_21); (22, Code cell_22); (24, Code cell_24);
    (26, Code cell_26); (27, Code cell_27); (28, Code cell_28); (29, Code cell_29);
    (32, Code cell_32); (34, Code cell_34); (35, Code cell_35); (36, Code cell_36);
    (37, Code cell_37); (38, Code cell_38); (41, Code cell_41); (43, Code cell_43);
    (44, Code cell_44); (45, Code cell_45); (46, Code cell_46); (47, Code cell_47);
    (49, Code cell_49); (50, Code cell_29);
    (52, Code cell_52); (53, Code cell_53); (54, cell_54);
    (56, Code cell_56); (57, Code cell_57); (58, cell_58);
    (60, Code cell_60); (61, Code cell_61); (62, Code cell_62); (63, Code cell_63);
    (64, Code cell_64); (65, cell_65); (66, Code cell_66);
    (68, Code local_cell); (69, Code cell_69); (70, Code cell_70); (71, Code cell_71);
    (72, cell_72); (73, Code cell_73);
    (75, Code cell_75); (76, Code cell_76); (77, Code cell_77); (78, Code cell_78);
    (79, Code cell_79); (80, Code cell_80); (81, cell_81);
    (83, Code cell_83); (84, Code cell_84); (85, Code cell_85); (86, cell_86);
    (87, Code cell_87); (89, Code cell_89);
    (91, Code cell_91); (92, Code cell_92); (93, Code cell_93); (94, cell_94);
    (97, Code cell_97); (98, Code cell_98); (99, Code cell_99); (100, Code cell_100);
    (101, Code cell_101); (102, Code cell_102) ].

(** Running cells one after the other; an exception stops the run. *)
Fixpoint run_all (cells : list (M unit)) : M unit :=
  match cells with
  | [] => ret tt
  | c :: cs => c ;; run_all cs
  end.

Definition cells (nb : list (nat * Cell)) : list (M unit) :=
  map (fun c => run_cell c.2) nb.

Definition run_notebook (env : Env) : Res unit * State :=
  run_all (cells notebook) env init_state.

(** ** A service to run the notebook against

    It assigns each created resource an identifier numbered by the length
    of the history, lets every resource become ACTIVE at once, and answers
    that a resource is gone on the first delete. *)

Fixpoint nat_digits (fuel n : nat) (acc : string) : string :=
  match fuel with
  | 0 => acc
  | S fuel' =>
      let acc' := String (ascii_of_nat (48 + n mod 10)) acc in
      if Nat.eqb (n / 10) 0 then acc' else nat_digits fuel' (n / 10) acc'
  end.

Definition arn_of (kind : string) (h : list Event) : PyVal :=
  VStr ("arn:aws:forecast:us-west-2:1:" ++ kind ++ "/" ++ nat_digits 8 (List.length h) "").

Definition prediction : PyVal :=
  VList [VDict [("Timestamp", VStr "2015-01-01T00:00:00"); ("Value", VInt 1)]].

Definition happy_service : Service := fun h c =>
  match c with
  | GetOrCreateRoleArn => Reply [("Arn", VStr "arn:aws:iam::1:role/ForecastNotebookRole")]
  | StsGetCallerIdentity => Reply [("Account", VStr "1")]
  | CreateDatasetGroup _ _ _ => Reply [("DatasetGroupArn", arn_of "dataset-group" h)]
  | CreateDataset _ _ _ _ _ => Reply [("DatasetArn", arn_of "dataset" h)]
  | CreateDatasetImportJob _ _ _ _ _ =>
      Reply [("DatasetImportJobArn", arn_of "dataset-import-job" h)]
  | CreatePredictor _ _ _ _ _ _ _ => Reply [("PredictorArn", arn_of "predictor" h)]
  | CreateForecast _ _ => Reply [("ForecastArn", arn_of "forecast" h)]
  | CreateForecastExportJob _ _ _ _ =>
      Reply [("ForecastExportJobArn", arn_of "forecast-export-job" h)]
  | DescribeDatasetGroup _ | DescribeDataset _ | DescribeDatasetImportJob _
  | DescribePredictor _ | DescribeForecast _ | DescribeForecastExportJob _ =>
      Reply [("Status", VStr "ACTIVE")]
  | QueryForecast _ _ =>
      Reply [("Forecast",
              VDict [("Predictions",
                      VDict [("p10", prediction); ("p50", prediction);
                             ("p90", prediction)])])]
  | DeleteForecastExportJob _ | DeleteForecast _ | DeletePredictor _
  | DeleteDatasetImportJob _ | DeleteDataset _ =>
      Fault "ResourceNotFoundException"
  | _ => Reply []
  end.

Definition happy_env : Env :=
  {| svc := happy_service; bucket_widget := "my-bucket";
     region_widget := "us-west-2"; wait_budget := 3; delete_budget := 3 |}.

(** ** Trace monitors and a program logic for cells

    A monitor reads the trace event by event: [step] updates its state and
    [check] says whether the next event is allowed in that state.  The
    triples run a cell against every service at once, tracking only the
    globals and the state of the monitor. *)

Section MonitorDefs.
Context {MS : Type}.
Variable step : MS -> Event -> MS.
Variable check : MS -> Event -> Prop.
Variable init : MS.

Definition mon_run (tr : list Event) : MS := fold_left step tr init.

Fixpoint accepts_from (m : MS) (tr : list Event) : Prop :=
  match tr with
  | [] => True
  | e :: tr' => check m e /\ accepts_from (step m e) tr'
  end.

Definition accepts (tr : list Event) : Prop := accepts_from init tr.

Definition Post (A : Type) : Type := Res A -> gmap string PyVal -> MS -> Prop.

Definition triple {A} (G : gmap string PyVal) (m : MS) (p : M A) (Q : Post A) : Prop :=
  forall env st,
    globals st = G -> mon_run (trace st) = m -> accepts (trace st) ->
    Q (p env st).1 (globals (p env st).2) (mon_run (trace (p env st).2))
    /\ accepts (trace (p env st).2).

(** What is left to show after [p] when [k] follows. *)
Definition cont {A B} (k : A -> M B) (Q : Post B) : Post A :=
  fun r G m =>
    match r with
    | Ret a => triple G m (k a) Q
    | Raise e => Q (Raise e) G m
    end.
End MonitorDefs.

Open Scope list_scope.

(** ** What the waiter observes *)

Inductive Observed := Active | Failed | Pending | Broken.

Definition observe (r : Res PyVal) : Observed :=
  match r with
  | Ret v =>
      match py_getitem v "Status" with
      | Ret s =>
          if in_set s success_set then Active
          else if in_set s failure_set then Failed
          else Pending
      | Raise _ => Broken
      end
  | Raise _ => Broken
  end.

(** The state after the probe has been invoked [k] times. *)
Fixpoint after_probes (probe : M PyVal) (env : Env) (k : nat) (st : State) : State :=
  match k with
  | 0 => st
  | S k' => after_probes probe env k' (probe env st).2
  end.

(** What the probe reports on its invocation number [k] (from 0). *)
Definition observed (probe : M PyVal) (env : Env) (st : State) (k : nat) : Observed :=
  observe (probe env (after_probes probe env k st)).1.

(** ** The waits of the notebook *)

Definition awaits (nb : list (nat * Cell)) : list (nat * M PyVal) :=
  omap (fun c => match c.2 with Await probe => Some (c.1, probe) | Code _ => None end) nb.

Definition is_describe (c : Call) : bool :=
  match c with
  | DescribeDatasetImportJob _ | DescribePredictor _ | DescribeForecast _
  | DescribeForecastExportJob _ => true
  | _ => false
  end.

(** A probe that changes no global and issues describe calls only. *)
Definition only_describes (p : M PyVal) : Prop :=
  forall env st,
    globals (p env st).2 = globals st /\
    exists polls,
      trace (p env st).2 = trace st ++ polls /\
      Forall (fun e : Event => is_describe e.1 = true) polls.

(** ** The order of the calls that change the service's state *)

Inductive Kind :=
| KCreateGroup | KCreateDataset | KUpdateGroup | KImport | KPredictor
| KForecast | KQuery | KExport
| KDelExport | KDelForecast | KDelPredictor | KDelImport | KDelDataset
| KDelGroup.

Definition kind_of (c : Call) : option Kind :=
  match c with
  | CreateDatasetGroup _ _ _ => Some KCreateGroup
  | CreateDataset _ _ _ _ _ => Some KCreateDataset
  | UpdateDatasetGroup _ _ => Some KUpdateGroup
  | CreateDatasetImportJob _ _ _ _ _ => Some KImport
  | CreatePredictor _ _ _ _ _ _ _ => Some KPredictor
  | CreateForecast _ _ => Some KForecast
  | QueryForecast _ _ => Some KQuery
  | CreateForecastExportJob _ _ _ _ => Some KExport
  | DeleteForecastExportJob _ => Some KDelExport
  | DeleteForecast _ => Some KDelForecast
  | DeletePredictor _ => Some KDelPredictor
  | DeleteDatasetImportJob _ => Some KDelImport
  | DeleteDataset _ => Some KDelDataset
  | DeleteDatasetGroup _ => Some KDelGroup
  | _ => None
  end.

Definition kind_eqb (a b : Kind) : bool :=
  match a, b with
  | KCreateGroup, KCreateGroup | KCreateDataset, KCreateDataset
  | KUpdateGroup, KUpdateGroup | KImport, KImport | KPredictor, KPredictor
  | KForecast, KForecast | KQuery, KQuery | KExport, KExport
  | KDelExport, KDelExport | KDelForecast, KDelForecast
  | KDelPredictor, KDelPredictor | KDelImport, KDelImport
  | KDelDataset, KDelDataset | KDelGroup, KDelGroup => true
  | _, _ => false
  end.

(** The order in which the cells issue these calls; [true] marks a kind of
    call that is issued several times in a row: once for each resource of
    that kind, and again whenever util.wait_till_delete retries. *)
Definition script_order : list (Kind * bool) :=
  [ (KCreateGroup, false); (KCreateDataset, false); (KCreateDataset, false);
    (KUpdateGroup, false);
    (KImport, false); (KImport, false);
    (KPredictor, false); (KForecast, false);
    (KImport, false); (KForecast, false);
    (KQuery, false); (KExport, false);
    (KDelExport, true); (KDelForecast, true); (KDelPredictor, true);
    (KDelImport, true); (KDelDataset, true);
    (KDelGroup, false) ].

Definition is_next (order : list (Kind * bool)) (i : nat) (k : Kind) : bool :=
  match order !! i with
  | Some (k', _) => kind_eqb k k'
  | None => false
  end.

Definition is_retry (order : list (Kind * bool)) (i : nat) (k : Kind) : bool :=
  match i with
  | 0 => false
  | S j =>
      match order !! j with
      | Some (k', again) => (again && kind_eqb k k')%bool
      | None => false
      end
  end.

(** [i] entries of the order have been issued. *)
Definition order_step (i : nat) (e : Event) : nat :=
  match kind_of e.1 with
  | Some k => if is_next script_order i k then S i else i
  | None => i
  end.

Definition order_check (i : nat) (e : Event) : Prop :=
  match kind_of e.1 with
  | Some k => (is_next script_order i k || is_retry script_order i k)%bool = true
  | None => True
  end.

Definition follows_script_order (tr : list Event) : Prop :=
  accepts order_step order_check 0 tr.

(** The order as the specification words it: create dataset group, create
    datasets, update group, import jobs, train predictor, generate
    forecasts, query, export, then the deletions by kind. *)
Definition claimed_phase (k : Kind) : nat :=
  match k with
  | KCreateGroup => 0 | KCreateDataset => 1 | KUpdateGroup => 2
  | KImport => 3 | KPredictor => 4 | KForecast => 5 | KQuery => 6
  | KExport => 7 | KDelExport => 8 | KDelForecast => 9
  | KDelPredictor => 10 | KDelImport => 11 | KDelDataset => 12
  | KDelGroup => 13
  end.

Definition phases (tr : list Event) : list nat :=
  omap (fun e : Event => claimed_phase <$> kind_of e.1) tr.

Fixpoint nondecreasing (l : list nat) : bool :=
  match l with
  | a :: l' =>
      match l' with
      | b :: _ => (Nat.leb a b && nondecreasing l')%bool
      | [] => true
      end
  | [] => true
  end.

Definition in_claimed_order (tr : list Event) : bool := nondecreasing (phases tr).

(** ** Resources and their identifiers *)

Inductive ResKind :=
| RGroup | RDataset | RImportJob | RPredictor | RForecast | RExportJob.

Definition reskind_eqb (a b : ResKind) : bool :=
  match a, b with
  | RGroup, RGroup | RDataset, RDataset | RImportJob, RImportJob
  | RPredictor, RPredictor | RForecast, RForecast | RExportJob, RExportJob => true
  | _, _ => false
  end.

(** The kind of resource a call creates, and the key of its identifier in
    the response. *)
Definition creates (c : Call) : option (ResKind * string) :=
  match c with
  | CreateDatasetGroup _ _ _ => Some (RGroup, "DatasetGroupArn")
  | CreateDataset _ _ _ _ _ => Some (RDataset, "DatasetArn")
  | CreateDatasetImportJob _ _ _ _ _ => Some (RImportJob, "DatasetImportJobArn")
  | CreatePredictor _ _ _ _ _ _ _ => Some (RPredictor, "PredictorArn")
  | CreateForecast _ _ => Some (RForecast, "ForecastArn")
  | CreateForecastExportJob _ _ _ _ => Some (RExportJob, "ForecastExportJobArn")
  | _ => None
  end.

(** Import jobs, predictors, forecasts and export jobs are created
    asynchronously. *)
Definition asynchronous (k : ResKind) : bool :=
  match k with
  | RImportJob | RPredictor | RForecast | RExportJob => true
  | RGroup | RDataset => false
  end.

Definition describes (c : Call) : option (ResKind * string) :=
  match c with
  | DescribeDatasetGroup a => Some (RGroup, a)
  | DescribeDataset a => Some (RDataset, a)
  | DescribeDatasetImportJob a => Some (RImportJob, a)
  | DescribePredictor a => Some (RPredictor, a)
  | DescribeForecast a => Some (RForecast, a)
  | DescribeForecastExportJob a => Some (RExportJob, a)
  | _ => None
  end.

Definition deletes (c : Call) : option (ResKind * string) :=
  match c with
  | DeleteDatasetGroup a => Some (RGroup, a)
  | DeleteDataset a => Some (RDataset, a)
  | DeleteDatasetImportJob a => Some (RImportJob, a)
  | DeletePredictor a => Some (RPredictor, a)
  | DeleteForecast a => Some (RForecast, a)
  | DeleteForecastExportJob a => Some (RExportJob, a)
  | _ => None
  end.

(** Every identifier of a forecasting resource that a call passes. *)
Definition uses (c : Call) : list (ResKind * string) :=
  match c with
  | DescribeDatasetGroup a | DeleteDatasetGroup a => [(RGroup, a)]
  | UpdateDatasetGroup g arns => (RGroup, g) :: map (fun a => (RDataset, a)) arns
  | CreateDatasetGroup _ _ arns => map (fun a => (RDataset, a)) arns
  | DescribeDataset a | DeleteDataset a => [(RDataset, a)]
  | CreateDatasetImportJob _ d _ _ _ => [(RDataset, d)]
  | DescribeDatasetImportJob a | DeleteDatasetImportJob a => [(RImportJob, a)]
  | CreatePredictor _ _ _ _ _ g _ => [(RGroup, g)]
  | DescribePredictor a | DeletePredictor a => [(RPredictor, a)]
  | CreateForecast _ p => [(RPredictor, p)]
  | DescribeForecast a | DeleteForecast a | QueryForecast a _ => [(RForecast, a)]
  | CreateForecastExportJob _ f _ _ => [(RForecast, f)]
  | DescribeForecastExportJob a | DeleteForecastExportJob a => [(RExportJob, a)]
  | _ => []
  end.

Definition reply_active (r : Response) : bool :=
  match r with
  | Reply body =>
      match assoc "Status" body with
      | Some s => in_set s success_set
      | None => false
      end
  | Fault _ => false
  end.

(** ** One asynchronous operation at a time

    The monitor remembers the asynchronous resource that was created and
    has not been seen in a success-terminal state yet. *)

Definition Awaited : Type := option (ResKind * option PyVal).

Definition is_awaited (m : Awaited) (k : ResKind) (a : string) : bool :=
  match m with
  | Some (k', Some (VStr a')) => (reskind_eqb k k' && String.eqb a a')%bool
  | _ => false
  end.

Definition await_step (m : Awaited) (e : Event) : Awaited :=
  match e.2 with
  | Reply body =>
      match creates e.1 with
      | Some (k, key) => if asynchronous k then Some (k, assoc key body) else m
      | None =>
          match describes e.1 with
          | Some (k, a) =>
              if (is_awaited m k a && reply_active (Reply body))%bool then None else m
          | None => m
          end
      end
  | Fault _ => m
  end.

(** Only describe calls are allowed while a resource is awaited. *)
Definition await_check (m : Awaited) (e : Event) : Prop :=
  match describes e.1 with
  | Some _ => True
  | None => m = None
  end.

(** Between an asynchronous create that the service accepted and any later
    call other than a describe call (a create, an upload, the query, a
    delete), the created resource was described and found active. *)
Definition awaited_before_next_call (tr : list Event) : Prop :=
  forall pre c body mid c' r' post k key,
    tr = pre ++ (c, Reply body) :: mid ++ (c', r') :: post ->
    creates c = Some (k, key) -> asynchronous k = true ->
    describes c' = None ->
    exists a d b,
      assoc key body = Some (VStr a) /\
      In (d, Reply b) mid /\ describes d = Some (k, a) /\
      reply_active (Reply b) = true.

(** ** What the trace establishes about resources *)

Inductive Fact :=
| Issued (k : ResKind) (a : string)
| Made (DatasetType : string) (a : string)
| Attached (g : string) (arns : list string)
| Gone (k : ResKind) (a : string).

Definition facts_of (e : Event) : list Fact :=
  match e.2 with
  | Reply body =>
      match creates e.1 with
      | Some (k, key) =>
          match assoc key body with
          | Some (VStr a) =>
              Issued k a ::
              match e.1 with
              | CreateDataset _ ty _ _ _ => [Made ty a]
              | _ => []
              end
          | _ => []
          end
      | None =>
          match e.1 with
          | UpdateDatasetGroup g arns => [Attached g arns]
          | _ => []
          end
      end
  | Fault code =>
      if is_not_found (ClientError code) then
        match deletes e.1 with
        | Some (k, a) => [Gone k a]
        | None => []
        end
      else []
  end.

Definition facts_step (m : list Fact) (e : Event) : list Fact := m ++ facts_of e.

Fixpoint all_issued (m : list Fact) (us : list (ResKind * string)) : Prop :=
  match us with
  | [] => True
  | (k, a) :: us' => In (Issued k a) m /\ all_issued m us'
  end.

(** Every identifier a call passes was issued by the service. *)
Definition ids_check (m : list Fact) (e : Event) : Prop := all_issued m (uses e.1).

(** The group is deleted once both datasets attached to it are gone. *)
Definition group_check (m : list Fact) (e : Event) : Prop :=
  match e.1 with
  | DeleteDatasetGroup g =>
      exists a_ts a_meta,
        In (Made "TARGET_TIME_SERIES" a_ts) m /\
        In (Made "ITEM_METADATA" a_meta) m /\
        In (Attached g [a_ts; a_meta]) m /\
        In (Gone RDataset a_ts) m /\
        In (Gone RDataset a_meta) m
  | _ => True
  end.

(** The schemas of the two datasets, as the client sends them. *)
Definition target_schema : list (string * string) :=
  [("timestamp", "timestamp"); ("target_value", "float"); ("item_id", "string")].

Definition metadata_schema : list (string * string) :=
  [("item_id", "string"); ("category", "string")].

Definition schema_check (e : Event) : Prop :=
  match e.1 with
  | CreateDataset _ ty _ _ schema =>
      (ty = "TARGET_TIME_SERIES" /\ schema = target_schema) \/
      (ty = "ITEM_METADATA" /\ schema = metadata_schema)
  | _ => True
  end.

(** A create call answered with identifier [a] for a resource of kind [k] *)
Definition issued_in (tr : list Event) (k : ResKind) (a : string) : Prop :=
  exists c body key,
    In (c, Reply body) tr /\ creates c = Some (k, key) /\
    assoc key body = Some (VStr a).

Definition identifiers_from_create_responses (tr : list Event) : Prop :=
  forall pre c r post k a,
    tr = pre ++ (c, r) :: post -> In (k, a) (uses c) -> issued_in pre k a.

Definition dataset_created (tr : list Event) (ty a : string) : Prop :=
  exists d n f s body,
    In (CreateDataset d ty n f s, Reply body) tr /\
    assoc "DatasetArn" body = Some (VStr a).

(** A delete call on the resource was answered that it does not exist. *)
Definition deletion_confirmed (tr : list Event) (k : ResKind) (a : string) : Prop :=
  exists c code,
    In (c, Fault code) tr /\ deletes c = Some (k, a) /\
    is_not_found (ClientError code) = true.

Definition group_deleted_after_datasets (tr : list Event) : Prop :=
  forall pre g r post,
    tr = pre ++ (DeleteDatasetGroup g, r) :: post ->
    exists a_ts a_meta,
      dataset_created pre "TARGET_TIME_SERIES" a_ts /\
      dataset_created pre "ITEM_METADATA" a_meta /\
      (exists b, In (UpdateDatasetGroup g [a_ts; a_meta], Reply b) pre) /\
      deletion_confirmed pre RDataset a_ts /\
      deletion_confirmed pre RDataset a_meta.


(** ** All monitors at once *)

Definition Watch : Type := nat * Awaited * list Fact.

Definition watch_step (m : Watch) (e : Event) : Watch :=
  (order_step m.1.1 e, await_step m.1.2 e, facts_step m.2 e).

Definition watch_check (m : Watch) (e : Event) : Prop :=
  order_check m.1.1 e /\ await_check m.1.2 e /\
  ids_check m.2 e /\ group_check m.2 e /\ schema_check e.

Definition watch_init : Watch := (0, None, []).

(** ** Two more services: one that fails every creation, one that never
    finishes any *)

Definition describe_status (status : string) (base : Service) : Service :=
  fun h c =>
    match describes c with
    | Some _ => Reply [("Status", VStr status)]
    | None => base h c
    end.


Definition stuck_service : Service := describe_status "CREATE_IN_PROGRESS" happy_service.


Definition stuck_env : Env :=
  {| svc := stuck_service; bucket_widget := "my-bucket";
     region_widget := "us-west-2"; wait_budget := 3; delete_budget := 3 |}.

Definition no_bucket_env : Env :=
  {| svc := happy_service; bucket_widget := "";
     region_widget := "us-west-2"; wait_budget := 3; delete_budget := 3 |}.

(** A probe on its own, to run the waiter against a service. *)
Definition sample_probe : M PyVal :=
  call (DescribePredictor "arn:aws:forecast:us-west-2:1:predictor/p").

(** A service under which the predictor fails on the third probe. *)
Definition slow_failure : Service := fun h c =>
  if Nat.ltb (List.length h) 2 then Reply [("Status", VStr "CREATE_IN_PROGRESS")]
  else Reply [("Status", VStr "CREATE_FAILED")].

Definition slow_failure_env : Env :=
  {| svc := slow_failure; bucket_widget := "b"; region_widget := "r";
     wait_budget := 5; delete_budget := 1 |}.

(** ** More of what a run establishes: uploads, frequencies, exports *)

Inductive More :=
| Uploaded (Bucket Key : string)
| Declared (DatasetType : string) (DataFrequency : option string) (a : string)
| Exported (a : string)
| Dropped (g : string).

Definition more_of (e : Event) : list More :=
  match e.2 with
  | Reply body =>
      match e.1 with
      | S3UploadFile _ b k => [Uploaded b k]
      | CreateDataset _ ty _ f _ =>
          match assoc "DatasetArn" body with
          | Some (VStr a) => [Declared ty f a]
          | _ => []
          end
      | DescribeForecastExportJob a =>
          if reply_active (Reply body) then [Exported a] else []
      | DeleteDatasetGroup g => [Dropped g]
      | _ => []
      end
  | Fault _ => []
  end.

Definition Log : Type := list Fact * list More.

Definition log_step (m : Log) (e : Event) : Log :=
  (m.1 ++ facts_of e, m.2 ++ more_of e).

(** The path of an import job names an object that was uploaded. *)
Fixpoint uploaded_as (path : string) (more : list More) : Prop :=
  match more with
  | [] => False
  | Uploaded b k :: more' =>
      path = ("s3://" ++ b ++ "/" ++ k)%string \/ uploaded_as path more'
  | _ :: more' => uploaded_as path more'
  end.

(** The destination of an export job, as cells 91 and 92 build it from the
    bucket and the name of the job. *)
Fixpoint exported_to (path name : string) (more : list More) : Prop :=
  match more with
  | [] => False
  | Uploaded b _ :: more' =>
      path = (("s3://" ++ b ++ "/") ++ "/" ++ name)%string
      \/ exported_to path name more'
  | _ :: more' => exported_to path name more'
  end.

Definition import_check (m : Log) (e : Event) : Prop :=
  match e.1 with
  | CreateDatasetImportJob _ d path _ t =>
      uploaded_as path m.2 /\
      match t with
      | Some _ => In (Made "TARGET_TIME_SERIES" d) m.1
      | None => In (Made "ITEM_METADATA" d) m.1
      end
  | _ => True
  end.

Definition export_check (m : Log) (e : Event) : Prop :=
  match e.1 with
  | CreateForecastExportJob n _ path _ => exported_to path n m.2
  | _ => True
  end.

Definition predictor_check (m : Log) (e : Event) : Prop :=
  match e.1 with
  | CreatePredictor _ _ _ _ _ g f =>
      exists a_ts a_meta,
        In (Declared "TARGET_TIME_SERIES" (Some f) a_ts) m.2 /\
        In (Declared "ITEM_METADATA" None a_meta) m.2 /\
        In (Attached g [a_ts; a_meta]) m.1
  | _ => True
  end.

Definition cleanup_check (m : Log) (e : Event) : Prop :=
  match deletes e.1 with
  | Some _ => exists a, In (Exported a) m.2
  | None => True
  end.

(** Every resource that was created is gone, and its group was dropped. *)
Fixpoint all_cleaned (facts : list Fact) (more : list More) (l : list Fact) : Prop :=
  match l with
  | [] => True
  | Issued k a :: l' =>
      match k with
      | RGroup => In (Dropped a) more
      | _ => In (Gone k a) facts
      end /\ all_cleaned facts more l'
  | _ :: l' => all_cleaned facts more l'
  end.

(** *** A value that calls set and later calls must pass *)

Section Latest.
Variable sets : Event -> option (option PyVal).

Definition latest_step (m : option PyVal) (e : Event) : option PyVal :=
  match sets e with
  | Some v => v
  | None => m
  end.
End Latest.

(** The role: what util.get_or_create_role_arn returned. *)
Definition role_sets (e : Event) : option (option PyVal) :=
  match e.1, e.2 with
  | GetOrCreateRoleArn, Reply body => Some (assoc "Arn" body)
  | _, _ => None
  end.

Definition role_of (c : Call) : option string :=
  match c with
  | CreateDatasetImportJob _ _ _ role _ => Some role
  | CreateForecastExportJob _ _ _ role => Some role
  | _ => None
  end.

Definition role_check (m : option PyVal) (e : Event) : Prop :=
  match role_of e.1 with
  | Some role => m = Some (VStr role)
  | None => True
  end.

(** The predictor *)
Definition predictor_sets (e : Event) : option (option PyVal) :=
  match e.1, e.2 with
  | CreatePredictor _ _ _ _ _ _ _, Reply body => Some (assoc "PredictorArn" body)
  | _, _ => None
  end.

Definition trained_check (m : option PyVal) (e : Event) : Prop :=
  match e.1 with
  | CreatePredictor _ _ _ _ _ _ _ => m = None
  | CreateForecast _ p => m = Some (VStr p)
  | _ => True
  end.

(** The forecast created last *)
Definition forecast_sets (e : Event) : option (option PyVal) :=
  match e.1, e.2 with
  | CreateForecast _ _, Reply body => Some (assoc "ForecastArn" body)
  | _, _ => None
  end.

Definition reads_forecast (c : Call) : option string :=
  match c with
  | QueryForecast f _ => Some f
  | CreateForecastExportJob _ f _ _ => Some f
  | _ => None
  end.

Definition forecast_check (m : option PyVal) (e : Event) : Prop :=
  match reads_forecast e.1 with
  | Some f => m = Some (VStr f)
  | None => True
  end.

(** The answer to the query, as cell 89 takes it apart: the predictions
    of the forecast, their p10 entries with timestamps and values, their
    p50 and p90 entries with values. *)
Definition quantiles_ok (body : list (string * PyVal)) : bool :=
  match py_getitem (VDict body) "Forecast" with
  | Ret f =>
      match py_getitem f "Predictions" with
      | Ret fcst =>
          match py_getitem fcst "p10" with
          | Ret q10 =>
              match py_map_getitem q10 "Timestamp", py_map_getitem q10 "Value" with
              | Ret _, Ret _ =>
                  match py_getitem fcst "p50" with
                  | Ret q50 =>
                      match py_map_getitem q50 "Value" with
                      | Ret _ =>
                          match py_getitem fcst "p90" with
                          | Ret q90 =>
                              match py_map_getitem q90 "Value" with
                              | Ret _ => true
                              | Raise _ => false
                              end
                          | Raise _ => false
                          end
                      | Raise _ => false
                      end
                  | Raise _ => false
                  end
              | _, _ => false
              end
          | Raise _ => false
          end
      | Raise _ => false
      end
  | Raise _ => false
  end.

Definition query_sets (e : Event) : option (option PyVal) :=
  match e.1, e.2 with
  | QueryForecast _ _, Reply body => Some (Some (VBool (quantiles_ok body)))
  | _, _ => None
  end.

Definition queried_check (m : option PyVal) (e : Event) : Prop :=
  match e.1 with
  | CreateForecastExportJob _ _ _ _ => m = Some (VBool true)
  | _ => True
  end.

(** *** Where a run stops *)

(** The calls that the cells issue on a client themselves, outside
    util.wait, util.wait_till_delete and util.get_or_create_role_arn. *)
Definition direct (c : Call) : bool :=
  match c with
  | NewSession _ | NewClient _ | StsGetCallerIdentity | S3UploadFile _ _ _
  | CreateDatasetGroup _ _ _ | UpdateDatasetGroup _ _ | CreateDataset _ _ _ _ _
  | CreateDatasetImportJob _ _ _ _ _ | CreatePredictor _ _ _ _ _ _ _
  | CreateForecast _ _ | QueryForecast _ _ | CreateForecastExportJob _ _ _ _
  | DeleteDatasetGroup _ => true
  | _ => false
  end.

(** The exception that the answer to a call makes the run raise. *)
Definition halt_step (h : option Exn) (e : Event) : option Exn :=
  match e.2 with
  | Fault code => if direct e.1 then Some (failure_of e.1 code) else h
  | Reply body =>
      match creates e.1 with
      | Some (_, key) =>
          match assoc key body with
          | None => Some (KeyError key)
          | Some _ => h
          end
      | None => h
      end
  end.

Definition halt_check (h : option Exn) (e : Event) : Prop := h = None.

(** *** All of them at once *)

Definition Audit : Type :=
  Log * option PyVal * option PyVal * option PyVal * option PyVal * option Exn.

Definition audit_log (m : Audit) : Log := m.1.1.1.1.1.
Definition audit_role (m : Audit) : option PyVal := m.1.1.1.1.2.
Definition audit_predictor (m : Audit) : option PyVal := m.1.1.1.2.
Definition audit_forecast (m : Audit) : option PyVal := m.1.1.2.
Definition audit_query (m : Audit) : option PyVal := m.1.2.
Definition audit_halt (m : Audit) : option Exn := m.2.

Definition audit_step (m : Audit) (e : Event) : Audit :=
  (log_step (audit_log m) e,
   latest_step role_sets (audit_role m) e,
   latest_step predictor_sets (audit_predictor m) e,
   latest_step forecast_sets (audit_forecast m) e,
   latest_step query_sets (audit_query m) e,
   halt_step (audit_halt m) e).

Definition audit_check (m : Audit) (e : Event) : Prop :=
  import_check (audit_log m) e /\ export_check (audit_log m) e /\
  predictor_check (audit_log m) e /\ cleanup_check (audit_log m) e /\
  role_check (audit_role m) e /\ trained_check (audit_predictor m) e /\
  forecast_check (audit_forecast m) e /\ queried_check (audit_query m) e /\
  halt_check (audit_halt m) e.

Definition audit_init : Audit := (([], []), None, None, None, None, None).

Definition audit_post (r : Res unit) (m : Audit) : Prop :=
  (r = Ret tt -> all_cleaned (audit_log m).1 (audit_log m).2 (audit_log m).1)
  /\ (forall e, audit_halt m = Some e -> r = Raise e).

(** *** Statements about the trace *)

(** Whatever was created has been deleted. *)
Definition cleaned_up (tr : list Event) : Prop :=
  (forall k a, issued_in tr k a -> k <> RGroup -> deletion_confirmed tr k a)
  /\ (forall g, issued_in tr RGroup g ->
        exists b, In (DeleteDatasetGroup g, Reply b) tr).

(** No delete call before the export job was found active. *)
Definition cleanup_after_export (tr : list Event) : Prop :=
  forall pre c r post,
    tr = pre ++ (c, r) :: post -> is_Some (deletes c) ->
    exists a b,
      In (DescribeForecastExportJob a, Reply b) pre /\
      reply_active (Reply b) = true.

Definition forecasts_share_predictor (tr : list Event) : Prop :=
  forall n1 p1 r1 n2 p2 r2,
    In (CreateForecast n1 p1, r1) tr -> In (CreateForecast n2 p2, r2) tr ->
    p1 = p2.

(** Query and export read the forecast that was created last. *)
Definition reads_latest_forecast (tr : list Event) : Prop :=
  forall pre c r post f,
    tr = pre ++ (c, r) :: post -> reads_forecast c = Some f ->
    exists p1 n p body p2,
      pre = p1 ++ (CreateForecast n p, Reply body) :: p2 /\
      assoc "ForecastArn" body = Some (VStr f) /\
      forall n' p' body', ~ In (CreateForecast n' p', Reply body') p2.

Definition imports_read_uploads (tr : list Event) : Prop :=
  forall pre n d path role t r post,
    tr = pre ++ (CreateDatasetImportJob n d path role t, r) :: post ->
    exists file b k rb,
      In (S3UploadFile file b k, Reply rb) pre /\
      path = ("s3://" ++ b ++ "/" ++ k)%string.

Definition imports_match_datasets (tr : list Event) : Prop :=
  forall pre n d path role t r post,
    tr = pre ++ (CreateDatasetImportJob n d path role t, r) :: post ->
    match t with
    | Some _ => dataset_created pre "TARGET_TIME_SERIES" d
    | None => dataset_created pre "ITEM_METADATA" d
    end.

Definition export_goes_to_bucket (tr : list Event) : Prop :=
  forall pre n f path role r post,
    tr = pre ++ (CreateForecastExportJob n f path role, r) :: post ->
    exists file b k rb,
      In (S3UploadFile file b k, Reply rb) pre /\
      path = ("s3://" ++ b ++ "//" ++ n)%string.

Definition dataset_declared (tr : list Event) (ty : string) (freq : option string)
    (a : string) : Prop :=
  exists d n s body,
    In (CreateDataset d ty n freq s, Reply body) tr /\
    assoc "DatasetArn" body = Some (VStr a).

Definition predictor_uses_both_datasets (tr : list Event) : Prop :=
  forall pre n alg h automl hpo g f r post,
    tr = pre ++ (CreatePredictor n alg h automl hpo g f, r) :: post ->
    exists a_ts a_meta,
      dataset_declared pre "TARGET_TIME_SERIES" (Some f) a_ts /\
      dataset_declared pre "ITEM_METADATA" None a_meta /\
      exists b, In (UpdateDatasetGroup g [a_ts; a_meta], Reply b) pre.

Definition export_after_full_query (tr : list Event) : Prop :=
  forall pre n f path role r post,
    tr = pre ++ (CreateForecastExportJob n f path role, r) :: post ->
    exists fq filters body,
      In (QueryForecast fq filters, Reply body) pre /\
      quantiles_ok body = true.

Definition role_from_helper (tr : list Event) : Prop :=
  forall pre c r post role,
    tr = pre ++ (c, r) :: post -> role_of c = Some role ->
    exists body,
      In (GetOrCreateRoleArn, Reply body) pre /\
      assoc "Arn" body = Some (VStr role).

(** A service that accepts every creation and answers without the
    identifier of the predictor, and one that refuses the predictor. *)
Definition no_predictor_arn : Service := fun h c =>
  match c with
  | CreatePredictor _ _ _ _ _ _ _ => Reply []
  | _ => happy_service h c
  end.


Definition no_predictor_arn_env : Env :=
  {| svc := no_predictor_arn; bucket_widget := "my-bucket";
     region_widget := "us-west-2"; wait_budget := 3; delete_budget := 3 |}.

(** A service that refuses the first upload. *)
Definition refuses_upload : Service := fun h c =>
  match c with
  | S3UploadFile _ _ _ => Fault "AccessDenied"
  | _ => happy_service h c
  end.

Definition refuses_upload_env : Env :=
  {| svc := refuses_upload; bucket_widget := "my-bucket";
     region_widget := "us-west-2"; wait_budget := 3; delete_budget := 3 |}.


(** ** The rules of the program logic *)

Section MonitorLemmas.
Context {MS : Type}.
Variable step : MS -> Event -> MS.
Variable check : MS -> Event -> Prop.
Variable init : MS.

Abbreviation mon_run := (mon_run step init).
Abbreviation accepts := (accepts step check init).
Abbreviation accepts_from := (accepts_from step check).
Abbreviation triple := (triple step check init).
Abbreviation cont := (cont step check init).
Abbreviation Post := (@Post MS).

Lemma accepts_from_app m tr1 tr2 :
  accepts_from m (tr1 ++ tr2) <->
  accepts_from m tr1 /\ accepts_from (fold_left step tr1 m) tr2.
Proof.
  revert m. induction tr1 as [|e tr1 IH]; intros m; simpl.
  - tauto.
  - rewrite IH. tauto.
Qed.

Lemma accepts_snoc tr e :
  accepts (tr ++ [e]) <-> accepts tr /\ check (mon_run tr) e.
Proof.
  unfold accepts. rewrite accepts_from_app. simpl. unfold mon_run. tauto.
Qed.

Lemma mon_run_snoc tr e : mon_run (tr ++ [e]) = step (mon_run tr) e.
Proof. unfold mon_run. by rewrite fold_left_app. Qed.

Lemma triple_bind {A B} G m (p : M A) (k : A -> M B) Q :
  triple G m p (cont k Q) -> triple G m (bind p k) Q.
Proof.
  intros Hp env st HG Hm Hacc.
  destruct (Hp env st HG Hm Hacc) as [HQ Hacc'].
  unfold bind. destruct (p env st) as [[a|e] st']; simpl in *.
  - by apply HQ.
  - done.
Qed.

Lemma triple_ret {A} G m (a : A) (Q : Post A) :
  Q (Ret a) G m -> triple G m (ret a) Q.
Proof. intros HQ env st <- <- Hacc. done. Qed.

Lemma triple_raise {A} G m e (Q : Post A) :
  Q (Raise e) G m -> triple G m (raise e) Q.
Proof. intros HQ env st <- <- Hacc. done. Qed.

Lemma triple_lift {A} G m (r : Res A) (Q : Post A) :
  Q r G m -> triple G m (lift r) Q.
Proof. intros HQ env st <- <- Hacc. done. Qed.

Lemma triple_get G m x (Q : Post PyVal) :
  match lookup_name x G with
  | Some v => Q (Ret v) G m
  | None => Q (Raise (NameError x)) G m
  end ->
  triple G m (get x) Q.
Proof.
  intros HQ env st <- <- Hacc. unfold get.
  destruct (lookup_name x (globals st)); done.
Qed.

Lemma triple_set G m x v (Q : Post unit) :
  Q (Ret tt) (bind_name x v G) m -> triple G m (set x v) Q.
Proof. intros HQ env st <- <- Hacc. done. Qed.

Lemma triple_widget G m w (Q : Post PyVal) :
  (forall s, Q (Ret (VStr s)) G m) -> triple G m (widget_value w) Q.
Proof. intros HQ env st <- <- Hacc. split; [apply HQ | done]. Qed.

Lemma triple_budget G m b (Q : Post nat) :
  (forall n, Q (Ret n) G m) -> triple G m (budget b) Q.
Proof. intros HQ env st <- <- Hacc. split; [apply HQ | done]. Qed.

Lemma triple_call G m c (Q : Post PyVal) :
  (forall r, check m (c, r)) ->
  (forall body, Q (Ret (VDict body)) G (step m (c, Reply body))) ->
  (forall code, Q (Raise (failure_of c code)) G (step m (c, Fault code))) ->
  triple G m (call c) Q.
Proof.
  intros Hc Hr Hf env st <- <- Hacc. unfold call.
  destruct (svc env (trace st) c) as [body|code] eqn:E; simpl;
    rewrite mon_run_snoc, accepts_snoc; split; auto.
Qed.

(** The forms the symbolic run uses: a primitive followed by the rest. *)

Lemma triple_assoc {A B C} G m (p : M A) (k1 : A -> M B) (k2 : B -> M C) Q :
  triple G m (bind p (fun a => bind (k1 a) k2)) Q ->
  triple G m (bind (bind p k1) k2) Q.
Proof.
  intros H env st HG Hm Hacc. specialize (H env st HG Hm Hacc).
  unfold bind in *. destruct (p env st) as [[a|e] st']; done.
Qed.

Lemma triple_close {A} G m (p : M A) Q :
  triple G m (bind p (fun a => ret a)) Q -> triple G m p Q.
Proof.
  intros H env st HG Hm Hacc. specialize (H env st HG Hm Hacc).
  unfold bind, ret in *. destruct (p env st) as [[a|e] st']; done.
Qed.

Lemma triple_ret_bind {A B} G m (a : A) (k : A -> M B) Q :
  triple G m (k a) Q -> triple G m (bind (ret a) k) Q.
Proof. intros H. apply triple_bind, triple_ret, H. Qed.

Lemma triple_raise_bind {A B} G m e (k : A -> M B) Q :
  Q (Raise e) G m -> triple G m (bind (raise e) k) Q.
Proof. intros H. apply triple_bind, triple_raise, H. Qed.

Lemma triple_lift_bind {A B} G m (r : Res A) (k : A -> M B) Q :
  cont k Q r G m -> triple G m (bind (lift r) k) Q.
Proof. intros H. apply triple_bind, triple_lift, H. Qed.

Lemma triple_get_bind {B} G m x v (k : PyVal -> M B) Q :
  lookup_name x G = Some v -> triple G m (k v) Q -> triple G m (bind (get x) k) Q.
Proof. intros E H. apply triple_bind, triple_get. by rewrite E. Qed.

Lemma triple_get_none {B} G m x (k : PyVal -> M B) Q :
  lookup_name x G = None -> Q (Raise (NameError x)) G m ->
  triple G m (bind (get x) k) Q.
Proof. intros E H. apply triple_bind, triple_get. by rewrite E. Qed.

Lemma triple_set_bind {B} G m x v (k : unit -> M B) Q :
  triple (bind_name x v G) m (k tt) Q -> triple G m (bind (set x v) k) Q.
Proof. intros H. apply triple_bind, triple_set, H. Qed.

Lemma triple_widget_bind {B} G m w (k : PyVal -> M B) Q :
  (forall s, triple G m (k (VStr s)) Q) -> triple G m (bind (widget_value w) k) Q.
Proof. intros H. apply triple_bind, triple_widget, H. Qed.

Lemma triple_budget_bind {B} G m b (k : nat -> M B) Q :
  (forall n, triple G m (k n) Q) -> triple G m (bind (budget b) k) Q.
Proof. intros H. apply triple_bind, triple_budget, H. Qed.

Lemma triple_call_bind {B} G m c (k : PyVal -> M B) Q :
  (forall r, check m (c, r)) ->
  (forall body, triple G (step m (c, Reply body)) (k (VDict body)) Q) ->
  (forall code, Q (Raise (failure_of c code)) G (step m (c, Fault code))) ->
  triple G m (bind (call c) k) Q.
Proof. intros Hc Hr Hf. apply triple_bind, triple_call; auto. Qed.

(** The polling loop of util.wait, with an invariant [I] on the monitor
    that every probe answering a non-terminal status preserves. *)
Lemma triple_wait_loop (I : MS -> Prop) G probe n (Q : Post Outcome) :
  (forall m, I m ->
     triple G m probe (fun r G' m' =>
       match r with
       | Raise e => Q (Raise e) G' m'
       | Ret v =>
           match py_getitem v "Status" with
           | Raise e => Q (Raise e) G' m'
           | Ret s =>
               if in_set s success_set then Q (Ret Success) G' m'
               else if in_set s failure_set then Q (Ret Failure) G' m'
               else G' = G /\ I m'
           end
       end)) ->
  (forall m, I m -> Q (Ret Timeout) G m) ->
  forall m, I m -> triple G m (wait_loop probe n) Q.
Proof.
  intros Hbody Hout. induction n as [|n IH]; intros m Hm.
  - apply triple_ret. by apply Hout.
  - intros env st HG Hmon Hacc.
    destruct (Hbody m Hm env st HG Hmon Hacc) as [HQ Hacc'].
    cbn [wait_loop]. unfold bind, lift.
    destruct (probe env st) as [[v|e] st']; simpl in *; [|done].
    destruct (py_getitem v "Status") as [s|e]; [|done].
    destruct (in_set s success_set); [done|].
    destruct (in_set s failure_set); [done|].
    destruct HQ as [HG' HI]. exact (IH _ HI env st' HG' eq_refl Hacc').
Qed.

(** The retry loop of util.wait_till_delete: [I] holds while the service
    keeps accepting the delete call, and the loop is left in the monitor
    state [mJ] once the service answers that the resource is gone. *)
Lemma triple_delete_loop (I : MS -> Prop) (mJ : MS) G callback n (Q : Post unit) :
  (forall m, I m ->
     triple G m callback (fun r G' m' =>
       match r with
       | Ret _ => G' = G /\ I m'
       | Raise e =>
           if is_not_found e then G' = G /\ m' = mJ else Q (Raise e) G' m'
       end)) ->
  Q (Ret tt) G mJ ->
  (forall m, I m -> Q (Raise (TimeoutError "Forecast resource deletion timed-out.")) G m) ->
  forall m, I m -> triple G m (delete_loop callback n) Q.
Proof.
  intros Hbody Hexit Hout. induction n as [|n IH]; intros m Hm.
  - apply triple_raise. by apply Hout.
  - intros env st HG Hmon Hacc.
    destruct (Hbody m Hm env st HG Hmon Hacc) as [HQ Hacc'].
    cbn [delete_loop].
    destruct (callback env st) as [[v|e] st']; simpl in *.
    + destruct HQ as [HG' HI]. exact (IH _ HI env st' HG' eq_refl Hacc').
    + destruct (is_not_found e); simpl; [|done].
      destruct HQ as [-> ->]. done.
Qed.

(** The same loop when the first accepted delete moves the monitor from
    [m0] to [mA], where retries keep it. *)
Lemma triple_delete_retry (m0 mA mJ : MS) G callback n (Q : Post unit) :
  triple G m0 callback (fun r G' m' =>
    match r with
    | Ret _ => G' = G /\ m' = mA
    | Raise e =>
        if is_not_found e then G' = G /\ m' = mJ else Q (Raise e) G' m'
    end) ->
  triple G mA callback (fun r G' m' =>
    match r with
    | Ret _ => G' = G /\ m' = mA
    | Raise e =>
        if is_not_found e then G' = G /\ m' = mJ else Q (Raise e) G' m'
    end) ->
  Q (Ret tt) G mJ ->
  Q (Raise (TimeoutError "Forecast resource deletion timed-out.")) G m0 ->
  Q (Raise (TimeoutError "Forecast resource deletion timed-out.")) G mA ->
  triple G m0 (delete_loop callback n) Q.
Proof.
  intros H0 HA Hexit Hout0 HoutA.
  apply (triple_delete_loop (fun m => m = m0 \/ m = mA) mJ); auto.
  - intros m [-> | ->].
    + intros env st HG Hm Hacc. destruct (H0 env st HG Hm Hacc) as [HQ ?].
      split; [|done].
      destruct (callback env st).1; [|done]. destruct HQ; auto.
    + intros env st HG Hm Hacc. destruct (HA env st HG Hm Hacc) as [HQ ?].
      split; [|done].
      destruct (callback env st).1; [|done]. destruct HQ; auto.
  - intros m [-> | ->]; done.
Qed.

Lemma triple_state {A} G m m' (p : M A) Q :
  m = m' -> triple G m' p Q -> triple G m p Q.
Proof. by intros ->. Qed.

(** From a triple on the whole run to every run of it. *)
Lemma triple_run {A} (p : M A) (Q : Post A) env :
  triple no_names init p Q ->
  Q (p env init_state).1 (globals (p env init_state).2)
    (mon_run (trace (p env init_state).2))
  /\ accepts (trace (p env init_state).2).
Proof. intros H. by apply H. Qed.
End MonitorLemmas.

(** ** The symbolic run

    [run_cells] walks through a triple, primitive by primitive.  Whenever a
    value the service chose decides how the run goes on, both ways are
    followed; the way that raises ends the run at once. *)

Arguments in_set : simpl never.
Arguments bind_name : simpl never.
Arguments lookup_name : simpl never.
Arguments no_names : simpl never.
Arguments is_not_found : simpl never.
Arguments wait_loop : simpl never.
Arguments delete_loop : simpl never.
Arguments py_map_getitem : simpl never.

Ltac head_of t :=
  lazymatch t with
  | ?f _ => head_of f
  | _ => t
  end.

Ltac split_on x :=
  lazymatch x with
  | match ?y with _ => _ end => split_on y
  | andb ?y _ => split_on y
  | negb ?y => split_on y
  | as_str ?v => is_var v; destruct v
  | _ => destruct x
  end.

(** Proves that a call is allowed by the monitors. *)
Ltac solve_check :=
  lazymatch goal with
  | |- True => exact I
  | |- _ /\ _ => split; solve_check
  | |- exists _, _ => eexists; solve_check
  | |- _ \/ _ => first [ left; solve_check | right; solve_check ]
  | |- _ = _ => reflexivity
  end.

(** Brings the state of the monitors to a value: an identifier is equal to
    itself, and an answer the run did not look at is set aside as soon as
    the state no longer depends on it. *)
Ltac same_id :=
  lazymatch goal with
  | |- context [String.eqb ?a ?a] => rewrite !String.eqb_refl; cbn
  end.

Ltac settle :=
  repeat lazymatch goal with
    | |- context [String.eqb ?a ?a] => rewrite !String.eqb_refl; cbn
    | |- context [match ?x with _ => _ end] => split_on x; cbn
    end;
  reflexivity.

Ltac merge_state :=
  lazymatch goal with
  | |- triple _ _ _ _ ?m _ _ =>
      lazymatch m with
      | context [match _ with _ => _ end] =>
          eapply triple_state; [ solve [settle] | ]
      end
  end.

Ltac open_watch :=
  unfold watch_check, watch_step, order_check, order_step, await_check,
    await_step, is_awaited, ids_check, group_check, schema_check, facts_step,
    facts_of;
  cbn.

Ltac norm := open_watch; try same_id; try merge_state.

Ltac run_get G x :=
  let r := eval vm_compute in (lookup_name x G) in
  lazymatch r with
  | Some ?v => apply (triple_get_bind _ _ _ G _ x v); [vm_compute; reflexivity|]
  | None => apply triple_get_none; [vm_compute; reflexivity|]
  end.

Ltac run_cells fin :=
  lazymatch goal with
  | |- triple _ _ _ _ _ (bind (bind _ _) _) _ =>
      apply triple_assoc; run_cells fin
  | |- triple _ _ _ _ _ (bind (ret _) _) _ =>
      apply triple_ret_bind; run_cells fin
  | |- triple _ _ _ _ _ (bind (raise _) _) _ =>
      apply triple_raise_bind; run_cells fin
  | |- triple _ _ _ ?G _ (bind (get ?x) _) _ =>
      run_get G x; run_cells fin
  | |- triple _ _ _ _ _ (bind (set _ _) _) _ =>
      apply triple_set_bind; run_cells fin
  | |- triple _ _ _ _ _ (bind (widget_value _) _) _ =>
      apply triple_widget_bind; intros ?; run_cells fin
  | |- triple _ _ _ _ _ (bind (budget _) _) _ =>
      apply triple_budget_bind; intros ?; run_cells fin
  | |- triple _ _ _ _ _ (bind (lift _) _) _ =>
      apply triple_lift_bind; run_cells fin
  | |- triple _ _ _ _ _ (bind (call _) _) _ =>
      apply triple_call_bind;
      [ intros ?; open_watch; solve_check
      | intros ?; norm; run_cells fin
      | intros ?; norm; run_cells fin ]
  | |- triple _ _ _ _ ?m (bind (wait_loop _ _) _) _ =>
      apply triple_bind;
      apply (triple_wait_loop _ _ _ (fun m' => m' = m));
      [ intros ? ->; run_cells fin
      | intros ? ->; run_cells fin
      | reflexivity ]
  | |- triple _ _ _ _ _ (bind (delete_loop _ _) _) _ =>
      apply triple_bind;
      eapply triple_delete_retry;
      [ run_cells fin | run_cells fin | run_cells fin
      | run_cells fin | run_cells fin ]
  | |- triple _ _ _ _ _ (delete_loop _ _) _ =>
      eapply triple_delete_retry;
      [ run_cells fin | run_cells fin | run_cells fin
      | run_cells fin | run_cells fin ]
  | |- triple _ _ _ _ _ (bind (if ?b then _ else _) _) _ =>
      let b' := eval cbn in b in
      change b with b';
      lazymatch b' with
      | true => cbn iota
      | false => cbn iota
      | _ => split_on b'
      end; run_cells fin
  | |- triple _ _ _ _ _ (bind (match ?x with _ => _ end) _) _ =>
      let x' := eval cbn in x in
      change x with x'; cbn iota; run_cells fin
  | |- triple _ _ _ _ _ (bind (run_all _) _) _ =>
      cbn [run_all]; run_cells fin
  | |- triple _ _ _ _ _ (run_all []) _ =>
      apply triple_ret; run_cells fin
  | |- triple _ _ _ _ _ (run_all (_ :: _)) _ =>
      cbn [run_all]; run_cells fin
  | |- triple _ _ _ _ _ (bind ?p _) _ =>
      let h := head_of p in unfold h; run_cells fin
  | |- triple _ _ _ _ _ (ret _) _ =>
      apply triple_ret; run_cells fin
  | |- triple _ _ _ _ _ _ _ =>
      apply triple_close; run_cells fin
  | |- cont _ _ _ _ _ ?r _ _ =>
      let r' := eval cbn in r in
      change r with r';
      lazymatch r' with
      | Ret _ => unfold cont at 1
      | Raise _ => unfold cont at 1
      | _ => split_on r'; norm
      end; run_cells fin
  | |- match ?x with _ => _ end =>
      let x' := eval cbn in x in
      change x with x';
      first [ progress cbn iota | split_on x'; norm ];
      run_cells fin
  | |- _ /\ _ => split; run_cells fin
  | |- _ = _ => first [ reflexivity | solve [settle] | fin ]
  | |- _ => cbn beta; fin
  end.

(** ** From the monitors to statements about the trace *)

Section Simulation.
Context {MS MS' : Type}.
Variable f : MS -> MS'.
Variable step : MS -> Event -> MS.
Variable check : MS -> Event -> Prop.
Variable step' : MS' -> Event -> MS'.
Variable check' : MS' -> Event -> Prop.
Hypothesis f_step : forall m e, f (step m e) = step' (f m) e.
Hypothesis f_check : forall m e, check m e -> check' (f m) e.

Lemma accepts_from_sim m tr :
  accepts_from step check m tr -> accepts_from step' check' (f m) tr.
Proof.
  revert m. induction tr as [|e tr IH]; intros m; simpl; [done|].
  intros [Hc Hrest]. split; [by apply f_check|].
  rewrite <- f_step. by apply IH.
Qed.

Lemma accepts_sim init tr :
  accepts step check init tr -> accepts step' check' (f init) tr.
Proof. apply accepts_from_sim. Qed.

Lemma mon_run_sim init tr :
  f (mon_run step init tr) = mon_run step' (f init) tr.
Proof.
  unfold mon_run. revert init.
  induction tr as [|e tr IH]; intros init; simpl; [done|].
  by rewrite IH, f_step.
Qed.
End Simulation.

Section Accepted.
Context {MS : Type}.
Variable step : MS -> Event -> MS.
Variable check : MS -> Event -> Prop.
Variable init : MS.

Lemma accepts_prefix tr1 tr2 :
  accepts step check init (tr1 ++ tr2) -> accepts step check init tr1.
Proof. unfold accepts. rewrite accepts_from_app. tauto. Qed.

Lemma accepts_at pre e post :
  accepts step check init (pre ++ e :: post) ->
  check (mon_run step init pre) e.
Proof.
  unfold accepts. rewrite accepts_from_app. simpl. unfold mon_run. tauto.
Qed.
End Accepted.

(** *** The facts are those of the events *)

Lemma facts_fold tr acc :
  fold_left facts_step tr acc = acc ++ flat_map facts_of tr.
Proof.
  revert acc. induction tr as [|e tr IH]; intros acc; simpl.
  - by rewrite app_nil_r.
  - rewrite IH. unfold facts_step. by rewrite <- app_assoc.
Qed.

Lemma facts_run tr : mon_run facts_step [] tr = flat_map facts_of tr.
Proof. unfold mon_run. by rewrite facts_fold. Qed.

Lemma fact_from_event tr x :
  In x (mon_run facts_step [] tr) -> exists e, In e tr /\ In x (facts_of e).
Proof. rewrite facts_run, in_flat_map. done. Qed.

Lemma issued_fact c r k a :
  In (Issued k a) (facts_of (c, r)) ->
  exists body key,
    r = Reply body /\ creates c = Some (k, key) /\ assoc key body = Some (VStr a).
Proof.
  unfold facts_of; simpl. destruct r as [body|code].
  - destruct (creates c) as [[k' key]|] eqn:Ec.
    + destruct (assoc key body) as [[]|] eqn:Ea; simpl; try tauto.
      intros [H|H].
      * inversion H; subst. eauto.
      * destruct c; simpl in H; intuition discriminate.
    + destruct c; simpl; intuition discriminate.
  - destruct (is_not_found (ClientError code)); simpl; [|tauto].
    destruct (deletes c) as [[]|]; simpl; intuition discriminate.
Qed.

Lemma made_fact c r ty a :
  In (Made ty a) (facts_of (c, r)) ->
  exists d n f s body,
    c = CreateDataset d ty n f s /\ r = Reply body /\
    assoc "DatasetArn" body = Some (VStr a).
Proof.
  unfold facts_of; simpl. destruct r as [body|code].
  - destruct c; simpl; try (intuition discriminate);
      match goal with
      | |- context [assoc ?key body] =>
          destruct (assoc key body) as [[]|] eqn:Ea; simpl;
          try (intuition discriminate)
      end.
    intros [H|[H|[]]]; [discriminate|]. inversion H; subst. eauto 10.
  - destruct (is_not_found (ClientError code)); simpl; [|tauto].
    destruct (deletes c) as [[]|]; simpl; intuition discriminate.
Qed.

Lemma attached_fact c r g arns :
  In (Attached g arns) (facts_of (c, r)) ->
  exists body, c = UpdateDatasetGroup g arns /\ r = Reply body.
Proof.
  unfold facts_of; simpl. destruct r as [body|code].
  - destruct c; simpl; try (intuition discriminate);
      try match goal with
      | |- context [assoc ?key body] =>
          destruct (assoc key body) as [[]|] eqn:Ea; simpl;
          try (intuition discriminate)
      end.
    intros [H|[]]. inversion H; subst. eauto.
  - destruct (is_not_found (ClientError code)); simpl; [|tauto].
    destruct (deletes c) as [[]|]; simpl; intuition discriminate.
Qed.

Lemma gone_fact c r k a :
  In (Gone k a) (facts_of (c, r)) ->
  exists code,
    r = Fault code /\ deletes c = Some (k, a) /\
    is_not_found (ClientError code) = true.
Proof.
  unfold facts_of; simpl. destruct r as [body|code].
  - destruct c; simpl; try (intuition discriminate);
      match goal with
      | |- context [assoc ?key body] =>
          destruct (assoc key body) as [[]|] eqn:Ea; simpl;
          intuition discriminate
      end.
  - destruct (is_not_found (ClientError code)) eqn:E; simpl; [|tauto].
    destruct (deletes c) as [[k' a']|] eqn:Ed; simpl; [|tauto].
    intros [H|[]]. inversion H; subst. eauto.
Qed.

Lemma issued_in_trace tr k a :
  In (Issued k a) (mon_run facts_step [] tr) -> issued_in tr k a.
Proof.
  intros H. apply fact_from_event in H as ([c r] & Hin & Hf).
  apply issued_fact in Hf as (body & key & -> & Hc & Ha).
  exists c, body, key. done.
Qed.

Lemma all_issued_in tr us k a :
  all_issued (mon_run facts_step [] tr) us -> In (k, a) us -> issued_in tr k a.
Proof.
  induction us as [|[k' a'] us IH]; simpl; [tauto|].
  intros [H1 H2] [E|Hin].
  - inversion E; subst. by apply issued_in_trace.
  - by apply IH.
Qed.

Lemma ids_sound tr :
  accepts facts_step ids_check [] tr -> identifiers_from_create_responses tr.
Proof.
  intros Hacc pre c r post k a -> Hin.
  apply accepts_at in Hacc. unfold ids_check in Hacc; simpl in Hacc.
  by eapply all_issued_in.
Qed.

Lemma group_sound tr :
  accepts facts_step group_check [] tr -> group_deleted_after_datasets tr.
Proof.
  intros Hacc pre g r post ->.
  apply accepts_at in Hacc. unfold group_check in Hacc; simpl in Hacc.
  destruct Hacc as (a_ts & a_meta & Hts & Hmeta & Hatt & Hg1 & Hg2).
  exists a_ts, a_meta.
  assert (Hmade : forall ty a, In (Made ty a) (mon_run facts_step [] pre) ->
                               dataset_created pre ty a).
  { intros ty a H. apply fact_from_event in H as ([c r'] & Hin & Hf).
    apply made_fact in Hf as (d & n & f & s & body & -> & -> & Ha).
    exists d, n, f, s, body. done. }
  assert (Hgone : forall a, In (Gone RDataset a) (mon_run facts_step [] pre) ->
                            deletion_confirmed pre RDataset a).
  { intros a H. apply fact_from_event in H as ([c r'] & Hin & Hf).
    apply gone_fact in Hf as (code & -> & Hd & Hnf).
    exists c, code. done. }
  repeat split; auto.
  apply fact_from_event in Hatt as ([c r'] & Hin & Hf).
  apply attached_fact in Hf as (body & -> & ->). eauto.
Qed.


(** *** One asynchronous operation at a time *)

Lemma await_pending pre c body mid k key :
  creates c = Some (k, key) -> asynchronous k = true ->
  (forall e, In e mid -> creates e.1 = None) ->
  mon_run await_step None (pre ++ (c, Reply body) :: mid) = Some (k, assoc key body)
  \/ exists a d b,
       assoc key body = Some (VStr a) /\
       In (d, Reply b) mid /\ describes d = Some (k, a) /\
       reply_active (Reply b) = true.
Proof.
  intros Hc Hk. induction mid as [|[d r] mid IH] using rev_ind; intros Hmid.
  - left. replace (pre ++ [(c, Reply body)]) with (pre ++ [(c, Reply body)]) by done.
    rewrite mon_run_snoc. unfold await_step; cbn [fst snd]. by rewrite Hc, Hk.
  - destruct IH as [IH|(a & d' & b & Ha & Hin & Hd & Hact)].
    { intros e He. apply Hmid, in_or_app. by left. }
    + assert (Hnc : creates d = None).
      { apply (Hmid (d, r)), in_or_app. right. by left. }
      replace (pre ++ (c, Reply body) :: mid ++ [(d, r)])
        with ((pre ++ (c, Reply body) :: mid) ++ [(d, r)])
        by (by rewrite <- app_assoc).
      rewrite mon_run_snoc, IH.
      unfold await_step; cbn [fst snd]. destruct r as [b|code]; [|by left].
      rewrite Hnc. destruct (describes d) as [[k' a]|] eqn:Ed; [|by left].
      destruct (is_awaited (Some (k, assoc key body)) k' a && reply_active (Reply b))%bool
        eqn:E; [|by left].
      right. apply andb_true_iff in E as [Haw Hact].
      unfold is_awaited in Haw.
      destruct (assoc key body) as [[]|]; try discriminate.
      apply andb_true_iff in Haw as [Hkk Haa].
      apply String.eqb_eq in Haa as <-.
      assert (k' = k) as -> by (destruct k, k'; done).
      exists a, d, b. repeat split; auto.
      apply in_or_app. right. by left.
    + right. exists a, d', b. repeat split; auto.
      apply in_or_app. by left.
Qed.

Lemma describes_not_creates c p : describes c = Some p -> creates c = None.
Proof. destruct c; simpl; congruence. Qed.

Lemma first_other_call (l : list Event) :
  (exists e, In e l /\ describes e.1 = None) ->
  exists l1 e l2,
    l = l1 ++ e :: l2 /\ describes e.1 = None /\
    forall x, In x l1 -> creates x.1 = None.
Proof.
  induction l as [|x l IH]; intros (e & Hin & He); [done|].
  destruct (describes x.1) as [p|] eqn:Ex.
  - destruct Hin as [->|Hin]; [congruence|].
    destruct IH as (l1 & e' & l2 & -> & He' & Hl1); [eauto|].
    exists (x :: l1), e', l2. repeat split; auto.
    intros y [<-|Hy]; auto. by eapply describes_not_creates.
  - exists [], x, l. repeat split; auto. intros ? [].
Qed.

Lemma await_sound tr :
  accepts await_step await_check None tr -> awaited_before_next_call tr.
Proof.
  intros Hacc pre c body mid c' r' post k key -> Hc Hk Hc'.
  destruct (first_other_call (mid ++ [(c', r')])) as (l1 & e & l2 & El & He & Hl1).
  { exists (c', r'). split; [|done]. apply in_or_app. right. by left. }
  assert (Hsub : forall x, In x l1 -> In x mid).
  { intros x Hx.
    destruct l2 as [|y l2 _] using rev_ind.
    - apply app_inj_tail in El as [-> _]. done.
    - rewrite app_comm_cons, app_assoc in El.
      apply app_inj_tail in El as [-> _]. apply in_or_app. by left. }
  assert (Etr : pre ++ (c, Reply body) :: mid ++ (c', r') :: post
                = (pre ++ (c, Reply body) :: l1) ++ e :: (l2 ++ post)).
  { rewrite <- app_assoc. simpl. do 2 f_equal.
    change (mid ++ [(c', r')] ++ post = l1 ++ [e] ++ l2 ++ post).
    rewrite (app_assoc mid), El, <- app_assoc. done. }
  rewrite Etr in Hacc. apply accepts_at in Hacc.
  unfold await_check in Hacc. rewrite He in Hacc.
  destruct (await_pending pre c body l1 k key Hc Hk Hl1)
    as [Hp|(a & d & b & Ha & Hin & Hd & Hact)].
  - rewrite Hp in Hacc. discriminate.
  - exists a, d, b. repeat split; auto.
Qed.

(** ** Running cells *)

Lemma run_all_app pre post env st :
  run_all (pre ++ post) env st =
  match run_all pre env st with
  | (Ret _, st') => run_all post env st'
  | (Raise e, st') => (Raise e, st')
  end.
Proof.
  revert st. induction pre as [|c pre IH]; intros st; simpl; [done|].
  unfold bind. destruct (c env st) as [[[]|e] st']; [apply IH|done].
Qed.


Lemma happy_run_completes : (run_notebook happy_env).1 = Ret tt.
Proof. vm_compute. reflexivity. Qed.

Lemma happy_run_deletes_group :
  exists g r, In (DeleteDatasetGroup g, r) (trace (run_notebook happy_env).2).
Proof.
  exists "arn:aws:forecast:us-west-2:1:dataset-group/9", (Reply []).
  vm_compute. tauto.
Qed.

Lemma stuck_run_fails_first_wait :
  (run_notebook stuck_env).1 = Raise (AssertionError "")
  /\ List.length (trace (run_notebook stuck_env).2) = 21.
Proof. vm_compute. split; reflexivity. Qed.

(** The state-changing calls of the run in which everything succeeds. *)
Lemma happy_run_order :
  omap (fun e : Event => kind_of e.1) (trace (run_notebook happy_env).2) =
  [ KCreateGroup; KCreateDataset; KCreateDataset; KUpdateGroup;
    KImport; KImport; KPredictor; KForecast; KImport; KForecast;
    KQuery; KExport;
    KDelExport; KDelForecast; KDelForecast; KDelPredictor;
    KDelImport; KDelImport; KDelImport; KDelDataset; KDelDataset;
    KDelGroup ].
Proof. vm_compute. reflexivity. Qed.

Lemma awaits_of_notebook :
  map fst (awaits notebook) = [54; 58; 65; 72; 81; 86; 94].
Proof. reflexivity. Qed.

(** ** The waiter *)

Lemma wait_loop_S probe n env st :
  wait_loop probe (S n) env st =
  (r <- probe ;;
   status <- lift (py_getitem r "Status") ;;
   if in_set status success_set then ret Success
   else if in_set status failure_set then ret Failure
   else wait_loop probe n) env st.
Proof. reflexivity. Qed.

Lemma after_probes_S probe env k st :
  after_probes probe env (S k) st = (probe env (after_probes probe env k st)).2.
Proof.
  revert st. induction k as [|k IH]; intros st; [done|].
  change (after_probes probe env (S (S k)) st)
    with (after_probes probe env (S k) (probe env st).2).
  by rewrite IH.
Qed.

Lemma observed_S probe env st i :
  observed probe env st (S i) = observed probe env (probe env st).2 i.
Proof. reflexivity. Qed.

Lemma wait_loop_step probe env n st :
  wait_loop probe (S n) env st =
  match observed probe env st 0 with
  | Active => (Ret Success, (probe env st).2)
  | Failed => (Ret Failure, (probe env st).2)
  | Pending => wait_loop probe n env (probe env st).2
  | Broken =>
      match (probe env st).1 with
      | Raise e => (Raise e, (probe env st).2)
      | Ret v =>
          match py_getitem v "Status" with
          | Raise e => (Raise e, (probe env st).2)
          | Ret _ => wait_loop probe (S n) env st
          end
      end
  end.
Proof.
  rewrite wait_loop_S. unfold observed, observe, bind, lift, ret; simpl.
  destruct (probe env st) as [[v|e] st']; simpl; [|done].
  destruct (py_getitem v "Status") as [s|e]; [|done].
  destruct (in_set s success_set); [done|].
  destruct (in_set s failure_set); done.
Qed.

Lemma wait_loop_pending probe env k : forall n st,
  (forall i, i < k -> observed probe env st i = Pending) ->
  wait_loop probe (k + n) env st = wait_loop probe n env (after_probes probe env k st).
Proof.
  induction k as [|k IH]; intros n st Hp; [done|].
  change (S k + n) with (S (k + n)).
  rewrite wait_loop_step, (Hp 0) by lia.
  rewrite IH; [done|].
  intros i Hi. rewrite <- observed_S. apply Hp. lia.
Qed.

(** ** Frames of the waits *)

Lemma describe_probe_frame client arn_name (describe : string -> Call) :
  (forall a, is_describe (describe a) = true) ->
  only_describes (get client ;; a <- get_str arn_name ;; call (describe a)).
Proof.
  intros Hd env st. unfold get_str, bind, get, lift, call.
  destruct (lookup_name client (globals st)); simpl;
    [|split; [done|exists []; by rewrite app_nil_r]].
  destruct (lookup_name arn_name (globals st)) as [v|]; simpl;
    [|split; [done|exists []; by rewrite app_nil_r]].
  destruct (as_str v) as [a|e]; simpl;
    [|split; [done|exists []; by rewrite app_nil_r]].
  destruct (svc env (trace st) (describe a)) as [body|code] eqn:E; simpl;
    (split; [done|]); eexists; (split; [done|]);
    repeat constructor; apply Hd.
Qed.

Lemma wait_loop_frame probe n :
  only_describes probe ->
  forall env st,
    globals (wait_loop probe n env st).2 = globals st /\
    exists polls,
      trace (wait_loop probe n env st).2 = trace st ++ polls /\
      Forall (fun e : Event => is_describe e.1 = true) polls.
Proof.
  intros Hp env. induction n as [|n IH]; intros st.
  - split; [done|]. exists []. by rewrite app_nil_r.
  - destruct (Hp env st) as (HG & polls & Ht & Hd).
    assert (Hstop : globals (probe env st).2 = globals st /\
      exists polls, trace (probe env st).2 = trace st ++ polls /\
        Forall (fun e : Event => is_describe e.1 = true) polls) by eauto.
    rewrite wait_loop_S. unfold bind, lift, ret.
    destruct (probe env st) as [[v|e] st'] eqn:Ep; simpl in *; [|done].
    destruct (py_getitem v "Status") as [s|e]; [|done].
    destruct (in_set s success_set); [done|].
    destruct (in_set s failure_set); [done|].
    destruct (IH st') as (HG' & polls' & Ht' & Hd').
    split; [congruence|].
    exists (polls ++ polls'). rewrite Ht', Ht, app_assoc. split; [done|].
    by apply Forall_app.
Qed.

(** ** The run of the notebook under all monitors *)

Lemma notebook_triple :
  triple watch_step watch_check watch_init no_names watch_init (run_all (cells notebook))
    (fun r _ m => r = Ret tt -> m.1.1 = List.length script_order).
Proof.
  cbv [notebook cells map snd run_cell cell_54 cell_58 cell_65 cell_72 cell_81
       cell_86 cell_94 watch_init].
  run_cells ltac:(first [done | idtac]).
Qed.

(** ** Globals *)

Lemma lookup_bind_same x v G : lookup_name x (bind_name x v G) = Some v.
Proof. unfold lookup_name, bind_name. apply lookup_insert_eq. Qed.

Lemma lookup_bind_other x y v G :
  x <> y -> lookup_name y (bind_name x v G) = lookup_name y G.
Proof. unfold lookup_name, bind_name. apply lookup_insert_ne. Qed.

(** ** The assertions after the waits *)




(** C2: when the probe reports a failure-terminal status (CREATE_FAILED)
    after [k] non-terminal answers, within the budget, util.wait returns
    the failure outcome, and the state it leaves is the one after exactly
    [k + 1] invocations of the probe: it does not probe again. *)
Theorem failure_status_stops_polling probe env st k :
  k < wait_budget env ->
  (forall i, i < k -> observed probe env st i = Pending) ->
  observed probe env st k = Failed ->
  util_wait probe env st =
    (Ret (VStatus Failure), after_probes probe env (S k) st).
Proof.
  intros Hk Hp Hf. unfold util_wait, bind, budget, ret.
  replace (wait_budget env) with (k + S (wait_budget env - S k)) by lia.
  rewrite (wait_loop_pending _ _ _ _ _ Hp), wait_loop_step, after_probes_S.
  unfold observed in *. cbn [after_probes]. by rewrite Hf.
Qed.

Lemma failure_status_stops_polling_witness :
  util_wait sample_probe slow_failure_env init_state =
    (Ret (VStatus Failure), after_probes sample_probe slow_failure_env 3 init_state)
  /\ List.length (trace (after_probes sample_probe slow_failure_env 3 init_state)) = 3.
Proof.
  split.
  - apply (failure_status_stops_polling sample_probe slow_failure_env init_state 2).
    + simpl. lia.
    + intros i Hi. destruct i as [|[|i]]; [reflexivity|reflexivity|lia].
    + reflexivity.
  - reflexivity.
Defined.

(** C3: when the probe reports no terminal status on any of the probes the
    budget allows, util.wait returns after that many probes with the
    timeout outcome, which is neither the success outcome nor the failure
    outcome, and which an assertion takes as false. *)
Theorem exhausted_budget_times_out probe env st :
  (forall i, i < wait_budget env -> observed probe env st i = Pending) ->
  util_wait probe env st =
    (Ret (VStatus Timeout), after_probes probe env (wait_budget env) st)
  /\ Timeout <> Success /\ Timeout <> Failure
  /\ truthy (VStatus Timeout) = false.
Proof.
  intros Hp. repeat split; try discriminate.
  unfold util_wait, bind, budget, ret.
  replace (wait_budget env) with (wait_budget env + 0) at 1 by lia.
  by rewrite (wait_loop_pending _ _ _ _ _ Hp).
Qed.

Lemma exhausted_budget_times_out_witness :
  util_wait sample_probe stuck_env init_state =
    (Ret (VStatus Timeout), after_probes sample_probe stuck_env 3 init_state).
Proof.
  apply (exhausted_budget_times_out sample_probe stuck_env init_state).
  intros i Hi. destruct i as [|[|[|i]]]; [reflexivity|reflexivity|reflexivity|].
  simpl in Hi. lia.
Defined.

(** C10: when the bucket name or the region is empty, the run ends at the
    assertions of cell 5 with an AssertionError, and nothing was called
    before: no session, no client, no request. *)
Theorem unset_configuration_halts_before_any_call env :
  bucket_widget env = "" \/ region_widget env = "" ->
  ((run_notebook env).1 = Raise (AssertionError "bucketName not set.") \/
   (run_notebook env).1 = Raise (AssertionError "region not set."))
  /\ trace (run_notebook env).2 = [].
Proof.
  intros H. unfold run_notebook.
  change (cells notebook)
    with ([local_cell; local_cell; cell_5] ++ cells (drop 3 notebook)).
  rewrite run_all_app.
  cbn [run_all]. unfold local_cell, cell_5, bind, ret, widget_value, set, get.
  cbn [globals trace init_state]. rewrite !lookup_bind_same.
  unfold py_assert, raise, ret. cbn [truthy].
  destruct (String.eqb_spec (bucket_widget env) "") as [Eb|Nb]; cbn [negb].
  - split; [by left|done].
  - cbn [globals trace].
    rewrite lookup_bind_same.
    destruct H as [H|H]; [done|]. rewrite H. cbn.
    split; [by right|done].
Qed.

Lemma unset_configuration_halts_before_any_call_witness :
  trace (run_notebook no_bucket_env).2 = [].
Proof.
  apply (unset_configuration_halts_before_any_call no_bucket_env).
  left. reflexivity.
Defined.

(** ** What a wait leaves behind *)

Lemma wait_cell_frame probe :
  only_describes probe ->
  forall env st,
    (exists polls,
       trace (wait_cell probe env st).2 = trace st ++ polls /\
       Forall (fun e : Event => is_describe e.1 = true) polls)
    /\ (forall x, x <> "status" ->
          lookup_name x (globals (wait_cell probe env st).2)
          = lookup_name x (globals st)).
Proof.
  intros Hp env st.
  destruct (wait_loop_frame probe (wait_budget env) Hp env st)
    as (HG & polls & Ht & Hd).
  unfold wait_cell, util_wait, bind, budget, ret.
  destruct (wait_loop probe (wait_budget env) env st) as [[o|e] st'];
    cbn [fst snd] in *.
  - unfold set, get. cbn [globals trace]. rewrite lookup_bind_same.
    assert (Hst : forall r : Res unit * State,
              r.2 = {| globals := bind_name "status" (VStatus o) (globals st');
                       trace := trace st' |} ->
              (exists polls0, trace r.2 = trace st ++ polls0 /\
                 Forall (fun e : Event => is_describe e.1 = true) polls0)
              /\ (forall x, x <> "status" ->
                    lookup_name x (globals r.2) = lookup_name x (globals st))).
    { intros r ->. cbn [globals trace]. split; [eauto|].
      intros x Hx. rewrite lookup_bind_other by done. by rewrite HG. }
    apply Hst. unfold py_assert. by destruct (truthy (VStatus o)).
  - split; [eauto|]. intros x _. by rewrite HG.
Qed.

(** C8: every probe that the notebook hands to util.wait issues only
    describe calls (of an import job, a predictor, a forecast or an export
    job), and a wait changes no global other than [status]: whatever the
    service answers, the trace grows by describe calls only. *)
Theorem waits_only_describe n probe env st :
  In (n, probe) (awaits notebook) ->
  (exists polls,
     trace (wait_cell probe env st).2 = trace st ++ polls /\
     Forall (fun e : Event => is_describe e.1 = true) polls)
  /\ (forall x, x <> "status" ->
        lookup_name x (globals (wait_cell probe env st).2)
        = lookup_name x (globals st)).
Proof.
  intros Hin. apply wait_cell_frame.
  unfold awaits, notebook, cell_54, cell_58, cell_65, cell_72, cell_81,
    cell_86, cell_94 in Hin.
  simpl in Hin.
  repeat destruct Hin as [Hin|Hin]; try done;
    inversion Hin; subst; by apply describe_probe_frame.
Qed.

Lemma waits_only_describe_witness :
  let st := (run_all (cells (take 46 notebook)) happy_env init_state).2 in
  let st' := (wait_cell (probe_predictor "predictor_arn_deep_ar") stuck_env st).2 in
  lookup_name "predictor_arn_deep_ar" (globals st)
    = Some (VStr "arn:aws:forecast:us-west-2:1:predictor/21")
  /\ trace st' =
       trace st ++
       [ (DescribePredictor "arn:aws:forecast:us-west-2:1:predictor/21",
          Reply [("Status", VStr "CREATE_IN_PROGRESS")]);
         (DescribePredictor "arn:aws:forecast:us-west-2:1:predictor/21",
          Reply [("Status", VStr "CREATE_IN_PROGRESS")]);
         (DescribePredictor "arn:aws:forecast:us-west-2:1:predictor/21",
          Reply [("Status", VStr "CREATE_IN_PROGRESS")]) ]
  /\ lookup_name "status" (globals st') = Some (VStatus Timeout)
  /\ (exists polls,
        trace st' = trace st ++ polls /\
        Forall (fun e : Event => is_describe e.1 = true) polls)
  /\ (forall x, x <> "status" ->
        lookup_name x (globals st') = lookup_name x (globals st)).
Proof.
  intros st st'.
  split; [vm_compute; reflexivity|].
  split; [vm_compute; reflexivity|].
  split; [vm_compute; reflexivity|].
  apply (waits_only_describe 65 (probe_predictor "predictor_arn_deep_ar")
           stuck_env st).
  simpl. right. right. left. reflexivity.
Defined.

(** ** Every run of the notebook is accepted by the monitors *)

Lemma notebook_watched env :
  ((run_notebook env).1 = Ret tt ->
   (mon_run watch_step watch_init (trace (run_notebook env).2)).1.1
   = List.length script_order)
  /\ accepts watch_step watch_check watch_init (trace (run_notebook env).2).
Proof.
  exact (triple_run watch_step watch_check watch_init _ _ env notebook_triple).
Qed.

Lemma notebook_in_order env :
  accepts order_step order_check 0 (trace (run_notebook env).2).
Proof.
  destruct (notebook_watched env) as [_ Hacc].
  apply (accepts_sim (fun m : Watch => m.1.1) watch_step watch_check
           order_step order_check) in Hacc; [done|done|].
  intros m e H. apply H.
Qed.

Lemma notebook_awaits env :
  accepts await_step await_check None (trace (run_notebook env).2).
Proof.
  destruct (notebook_watched env) as [_ Hacc].
  apply (accepts_sim (fun m : Watch => m.1.2) watch_step watch_check
           await_step await_check) in Hacc; [done|done|].
  intros m e H. apply H.
Qed.

Lemma notebook_ids env :
  accepts facts_step ids_check [] (trace (run_notebook env).2).
Proof.
  destruct (notebook_watched env) as [_ Hacc].
  apply (accepts_sim (fun m : Watch => m.2) watch_step watch_check
           facts_step ids_check) in Hacc; [done|done|].
  intros m e H. apply H.
Qed.

Lemma notebook_group env :
  accepts facts_step group_check [] (trace (run_notebook env).2).
Proof.
  destruct (notebook_watched env) as [_ Hacc].
  apply (accepts_sim (fun m : Watch => m.2) watch_step watch_check
           facts_step group_check) in Hacc; [done|done|].
  intros m e H. apply H.
Qed.


(** C4, as the specification words it, fails: under the service that lets
    everything succeed, an import job is created after the predictor and
    the first forecast. *)
Lemma claimed_order_fails :
  in_claimed_order (trace (run_notebook happy_env).2) = false.
Proof. vm_compute. reflexivity. Qed.

(** C4, amended: whatever the service answers, the calls that change its
    state are issued in the order of [script_order]: dataset group, the two
    datasets, update of the group, the two import jobs, predictor, forecast,
    the cold-start import job, the cold-start forecast, query, export job,
    and then the deletions by kind: export job, forecasts, predictor, import
    jobs, datasets, dataset group.  A run that ends without an exception
    has issued all of them. *)
Theorem calls_follow_script_order env :
  follows_script_order (trace (run_notebook env).2)
  /\ ((run_notebook env).1 = Ret tt ->
      mon_run order_step 0 (trace (run_notebook env).2)
      = List.length script_order).
Proof.
  split; [apply notebook_in_order|].
  intros Hr. destruct (notebook_watched env) as [HQ _].
  rewrite <- (HQ Hr).
  symmetry.
  apply (mon_run_sim (fun m : Watch => m.1.1) watch_step order_step).
  done.
Qed.

Lemma calls_follow_script_order_witness :
  mon_run order_step 0 (trace (run_notebook happy_env).2) = 18.
Proof.
  apply (calls_follow_script_order happy_env).
  vm_compute. reflexivity.
Defined.

(** C5: in every run, between the creation of an import job, a predictor, a
    forecast or an export job that the service accepted and any later call
    that is not a describe call (the next create, but also an upload, the
    query and the deletions that follow the export job), the notebook
    described that very resource and found it active: nothing else is
    started while an asynchronous creation is in flight. *)
Theorem one_operation_at_a_time env :
  awaited_before_next_call (trace (run_notebook env).2).
Proof. apply await_sound, notebook_awaits. Qed.

(** C6: in every run, when delete_dataset_group is called on a group, the
    target time series dataset and the item metadata dataset that were
    created and attached to that group have both been deleted, and the
    service has confirmed for both that they no longer exist. *)
Theorem group_deleted_last env :
  group_deleted_after_datasets (trace (run_notebook env).2).
Proof. apply group_sound, notebook_group. Qed.


(** C9: in every run, every identifier of a forecasting resource that a
    call passes (to describe, wait for, delete or refer to the resource)
    is the string that an earlier create call of that kind of resource
    returned under its identifier key. *)
Theorem identifiers_come_from_create_responses env :
  identifiers_from_create_responses (trace (run_notebook env).2).
Proof. apply ids_sound, notebook_ids. Qed.

(** ** The run of the notebook under the further monitors *)

Ltac open_watch ::=
  unfold watch_check, watch_step, order_check, order_step, await_check,
    await_step, is_awaited, ids_check, group_check, schema_check, facts_step,
    audit_check, audit_step, audit_log, audit_role, audit_predictor,
    audit_forecast, audit_halt, log_step, import_check, export_check,
    predictor_check, cleanup_check, role_check, trained_check, forecast_check,
    halt_check, halt_step, latest_step, role_sets, predictor_sets,
    forecast_sets, audit_query, queried_check, query_sets, quantiles_ok,
    more_of, facts_of;
  cbn.

(** A value of a response that was looked at before is taken as it was
    found then. *)
Ltac split_on x ::=
  lazymatch x with
  | match ?y with _ => _ end => split_on y
  | andb ?y _ => split_on y
  | negb ?y => split_on y
  | as_str ?v => is_var v; destruct v
  | py_getitem _ _ =>
      lazymatch goal with
      | H : x = _ |- _ => rewrite H
      | _ => destruct x eqn:?
      end
  | py_map_getitem _ _ =>
      lazymatch goal with
      | H : x = _ |- _ => rewrite H
      | _ => destruct x eqn:?
      end
  | _ => destruct x
  end.

Ltac audit_end :=
  unfold audit_post, audit_log, audit_halt; cbn;
  repeat split; intros;
  first [ discriminate | congruence | solve_check ].

Lemma notebook_audit :
  triple audit_step audit_check audit_init no_names audit_init
    (run_all (cells notebook)) (fun r _ m => audit_post r m).
Proof.
  cbv [notebook cells map snd run_cell cell_54 cell_58 cell_65 cell_72 cell_81
       cell_86 cell_94 audit_init].
  run_cells ltac:(audit_end).
Qed.

(** ** From the further monitors to statements about the trace *)

Lemma string_app_assoc (a b c : string) :
  ((a ++ b) ++ c = a ++ b ++ c)%string.
Proof.
  induction a as [|x a IH]; [reflexivity|].
  change (String x ((a ++ b) ++ c)%string = String x (a ++ b ++ c)%string).
  by rewrite IH.
Qed.

Lemma log_fold tr acc :
  fold_left log_step tr acc =
  (acc.1 ++ flat_map facts_of tr, acc.2 ++ flat_map more_of tr).
Proof.
  revert acc. induction tr as [|e tr IH]; intros [f m]; simpl.
  - by rewrite !app_nil_r.
  - rewrite IH. unfold log_step; simpl. by rewrite <- !app_assoc.
Qed.

Lemma log_run tr :
  mon_run log_step ([], []) tr = (flat_map facts_of tr, flat_map more_of tr).
Proof. unfold mon_run. by rewrite log_fold. Qed.

Lemma fact_of_event tr x :
  In x (flat_map facts_of tr) -> exists e, In e tr /\ In x (facts_of e).
Proof. by rewrite in_flat_map. Qed.

Lemma more_of_event tr x :
  In x (flat_map more_of tr) -> exists e, In e tr /\ In x (more_of e).
Proof. by rewrite in_flat_map. Qed.

Ltac more_cases :=
  unfold more_of; cbn [fst snd];
  match goal with
  | r : Response |- _ => destruct r as [body|code]; [|simpl; tauto]
  end;
  match goal with
  | c : Call |- _ => destruct c; try (simpl; tauto)
  end;
  repeat match goal with
    | |- context [reply_active ?r] => destruct (reply_active r) eqn:?
    | |- context [match assoc ?k ?b with _ => _ end] =>
        destruct (assoc k b) as [[]|] eqn:?
    end;
  simpl; try tauto;
  intros [H|[]]; inversion H; subst.

Lemma uploaded_more c r b k :
  In (Uploaded b k) (more_of (c, r)) ->
  exists file body, c = S3UploadFile file b k /\ r = Reply body.
Proof. more_cases. eauto. Qed.

Lemma declared_more c r ty f a :
  In (Declared ty f a) (more_of (c, r)) ->
  exists d n s body,
    c = CreateDataset d ty n f s /\ r = Reply body /\
    assoc "DatasetArn" body = Some (VStr a).
Proof. more_cases. eauto 10. Qed.

Lemma exported_more c r a :
  In (Exported a) (more_of (c, r)) ->
  exists body,
    c = DescribeForecastExportJob a /\ r = Reply body /\
    reply_active (Reply body) = true.
Proof. more_cases. eauto. Qed.

Lemma dropped_more c r g :
  In (Dropped g) (more_of (c, r)) ->
  exists body, c = DeleteDatasetGroup g /\ r = Reply body.
Proof. more_cases. eauto. Qed.

Lemma uploaded_as_in path more :
  uploaded_as path more ->
  exists b k, In (Uploaded b k) more /\ path = ("s3://" ++ b ++ "/" ++ k)%string.
Proof.
  induction more as [|x more IH]; simpl; [tauto|].
  destruct x; try (intros H; destruct (IH H) as (b & k & ? & ?); eauto).
  intros [->|H]; [eauto|]. destruct (IH H) as (b & k & ? & ?); eauto.
Qed.

Lemma exported_to_in path name more :
  exported_to path name more ->
  exists b k, In (Uploaded b k) more /\ path = ("s3://" ++ b ++ "//" ++ name)%string.
Proof.
  induction more as [|x more IH]; simpl; [tauto|].
  destruct x; try (intros H; destruct (IH H) as (b & k & ? & ?); eauto).
  intros [->|H]; [|destruct (IH H) as (b & k & ? & ?); eauto].
  eexists _, _. split; [by left|].
  by rewrite !string_app_assoc.
Qed.

Lemma issued_fact_of c body k key a :
  creates c = Some (k, key) -> assoc key body = Some (VStr a) ->
  In (Issued k a) (facts_of (c, Reply body)).
Proof.
  intros Hc Ha. unfold facts_of; simpl. rewrite Hc, Ha. by left.
Qed.

Lemma all_cleaned_in facts more l k a :
  all_cleaned facts more l -> In (Issued k a) l ->
  match k with
  | RGroup => In (Dropped a) more
  | _ => In (Gone k a) facts
  end.
Proof.
  induction l as [|x l IH]; simpl; [tauto|].
  destruct x; try (intros H [E|Hin]; [discriminate|by apply IH]).
  intros [H1 H2] [E|Hin]; [|by apply IH].
  by inversion E; subst.
Qed.

(** *** The value set last *)

Lemma latest_run_some sets tr v :
  mon_run (latest_step sets) None tr = Some v ->
  exists p1 e p2,
    tr = p1 ++ e :: p2 /\ sets e = Some (Some v) /\
    forall x, In x p2 -> sets x = None.
Proof.
  induction tr as [|e tr IH] using rev_ind; [discriminate|].
  rewrite mon_run_snoc. unfold latest_step at 1.
  destruct (sets e) as [w|] eqn:E.
  - intros ->. exists tr, e, []. repeat split; auto. intros ? [].
  - intros H. destruct (IH H) as (p1 & e0 & p2 & -> & He0 & Hp2).
    exists p1, e0, (p2 ++ [e]). rewrite <- app_assoc. repeat split; auto.
    intros x Hx. apply in_app_or in Hx as [Hx|[<-|[]]]; auto.
Qed.

Lemma trained_stays a tr :
  accepts_from (latest_step predictor_sets) trained_check (Some (VStr a)) tr ->
  forall n p r, In (CreateForecast n p, r) tr -> p = a.
Proof.
  induction tr as [|[c r] tr IH]; simpl; [tauto|].
  intros [Hc Hacc] n p r0 [E|Hin].
  - inversion E; subst. unfold trained_check in Hc; simpl in Hc. congruence.
  - unfold trained_check in Hc.
    destruct c; simpl in Hc; try discriminate Hc; by eapply IH.
Qed.

Lemma forecasts_same m tr :
  accepts_from (latest_step predictor_sets) trained_check m tr ->
  forecasts_share_predictor tr.
Proof.
  revert m. induction tr as [|[c r] tr IH]; intros m; simpl.
  - intros _ ? ? ? ? ? ? [].
  - intros [Hc Hacc] n1 p1 r1 n2 p2 r2 H1 H2.
    destruct (kind_of c) as [k|] eqn:Ek;
      [destruct k|];
      try (destruct H1 as [E1|H1]; [inversion E1; subst; discriminate Ek|];
           destruct H2 as [E2|H2]; [inversion E2; subst; discriminate Ek|];
           by eapply IH).
    destruct c; try discriminate Ek.
    unfold trained_check in Hc; simpl in Hc. subst m.
    change (latest_step predictor_sets (Some (VStr PredictorArn))
              (CreateForecast ForecastName PredictorArn, r))
      with (Some (VStr PredictorArn)) in Hacc.
    assert (Ht := trained_stays _ _ Hacc).
    destruct H1 as [E1|H1]; destruct H2 as [E2|H2];
      try (inversion E1; subst); try (inversion E2; subst);
      try reflexivity.
    + symmetry. by eapply Ht.
    + by eapply Ht.
    + rewrite (Ht _ _ _ H1). symmetry. by eapply Ht.
Qed.

(** *** Where a run stops *)

Lemma halt_stops tr pre ev post e :
  accepts halt_step halt_check None tr ->
  tr = pre ++ ev :: post ->
  halt_step (mon_run halt_step None pre) ev = Some e ->
  post = [] /\ mon_run halt_step None tr = Some e.
Proof.
  intros Hacc -> He. destruct post as [|x post].
  - split; [done|]. by rewrite mon_run_snoc.
  - exfalso.
    replace (pre ++ ev :: x :: post) with ((pre ++ [ev]) ++ x :: post) in Hacc
      by (by rewrite <- app_assoc).
    apply accepts_at in Hacc. unfold halt_check in Hacc.
    rewrite mon_run_snoc in Hacc. congruence.
Qed.

(** *** Every run of the notebook is accepted by the further monitors *)

Lemma notebook_audited env :
  audit_post (run_notebook env).1
    (mon_run audit_step audit_init (trace (run_notebook env).2))
  /\ accepts audit_step audit_check audit_init (trace (run_notebook env).2).
Proof.
  exact (triple_run audit_step audit_check audit_init _ _ env notebook_audit).
Qed.

Lemma audit_log_run tr :
  audit_log (mon_run audit_step audit_init tr)
  = (flat_map facts_of tr, flat_map more_of tr).
Proof.
  rewrite (mon_run_sim audit_log audit_step log_step) by done.
  apply log_run.
Qed.

Lemma audit_halt_run tr :
  audit_halt (mon_run audit_step audit_init tr) = mon_run halt_step None tr.
Proof. by rewrite (mon_run_sim audit_halt audit_step halt_step). Qed.

Lemma notebook_logged env (check : Log -> Event -> Prop) :
  (forall m e, audit_check m e -> check (audit_log m) e) ->
  forall pre e post,
    trace (run_notebook env).2 = pre ++ e :: post ->
    check (flat_map facts_of pre, flat_map more_of pre) e.
Proof.
  intros Hc pre e post E.
  destruct (notebook_audited env) as [_ Hacc].
  apply (accepts_sim audit_log audit_step audit_check log_step check) in Hacc;
    [|done|done].
  rewrite E in Hacc. apply accepts_at in Hacc. by rewrite log_run in Hacc.
Qed.

Lemma notebook_halts env :
  accepts halt_step halt_check None (trace (run_notebook env).2).
Proof.
  destruct (notebook_audited env) as [_ Hacc].
  apply (accepts_sim audit_halt audit_step audit_check halt_step halt_check)
    in Hacc; [done|done|].
  intros m e H. apply H.
Qed.

Lemma notebook_raises env e :
  mon_run halt_step None (trace (run_notebook env).2) = Some e ->
  (run_notebook env).1 = Raise e.
Proof.
  intros H. destruct (notebook_audited env) as [[_ Hh] _].
  apply Hh. by rewrite audit_halt_run.
Qed.

(** ** Further properties of the runs *)

(** X1: a run that ends without an exception has cleaned up: for every
    export job, forecast, predictor, import job and dataset that a create
    call returned, a delete call was answered that the resource no longer
    exists, and delete_dataset_group was accepted for the dataset group. *)
Theorem complete_run_cleans_up env :
  (run_notebook env).1 = Ret tt ->
  cleaned_up (trace (run_notebook env).2).
Proof.
  intros Hr. destruct (notebook_audited env) as [[Hclean _] _].
  specialize (Hclean Hr). rewrite audit_log_run in Hclean. cbn [fst snd] in Hclean.
  assert (Hin : forall k a, issued_in (trace (run_notebook env).2) k a ->
            In (Issued k a) (flat_map facts_of (trace (run_notebook env).2))).
  { intros k a (c & body & key & Hc & Hk & Ha).
    apply in_flat_map. exists (c, Reply body). split; [done|].
    by eapply issued_fact_of. }
  split.
  - intros k a Hi Hk.
    assert (Hg := all_cleaned_in _ _ _ k a Hclean (Hin _ _ Hi)).
    assert (Hgone : In (Gone k a) (flat_map facts_of (trace (run_notebook env).2)))
      by (destruct k; done).
    apply fact_of_event in Hgone as ([c r] & Hev & Hf).
    apply gone_fact in Hf as (code & -> & Hd & Hnf).
    by exists c, code.
  - intros g Hi.
    assert (Hg := all_cleaned_in _ _ _ RGroup g Hclean (Hin _ _ Hi)).
    apply more_of_event in Hg as ([c r] & Hev & Hf).
    apply dropped_more in Hf as (body & -> & ->). eauto.
Qed.

Lemma complete_run_cleans_up_witness :
  cleaned_up (trace (run_notebook happy_env).2).
Proof.
  apply (complete_run_cleans_up happy_env).
  vm_compute. reflexivity.
Defined.

(** X2: no delete call is issued before the export job was described and
    found active; a run that fails earlier deletes nothing of what it
    created. *)
Theorem cleanup_waits_for_export env :
  cleanup_after_export (trace (run_notebook env).2).
Proof.
  intros pre c r post E Hd.
  assert (H := notebook_logged env cleanup_check
                 ltac:(intros m e Hc; apply Hc) pre (c, r) post E).
  unfold cleanup_check in H; cbn [fst snd] in H.
  destruct Hd as [p Hd]. rewrite Hd in H. destruct H as (a & Ha).
  apply more_of_event in Ha as ([c' r'] & Hev & Hf).
  apply exported_more in Hf as (body & -> & -> & Hact). eauto.
Qed.

(** X3: all create_forecast calls of a run pass the same predictor: the
    cold-start forecast is generated by the predictor that generated the
    first forecast. *)
Theorem one_predictor_for_all_forecasts env :
  forecasts_share_predictor (trace (run_notebook env).2).
Proof.
  destruct (notebook_audited env) as [_ Hacc].
  apply (accepts_sim audit_predictor audit_step audit_check
           (latest_step predictor_sets) trained_check) in Hacc; [|done|].
  - by eapply forecasts_same.
  - intros m e H. apply H.
Qed.

(** X4: query_forecast and create_forecast_export_job pass the identifier
    that the most recent accepted create_forecast call returned. *)
Theorem query_and_export_read_latest_forecast env :
  reads_latest_forecast (trace (run_notebook env).2).
Proof.
  intros pre c r post f E Hf.
  destruct (notebook_audited env) as [_ Hacc].
  apply (accepts_sim audit_forecast audit_step audit_check
           (latest_step forecast_sets) forecast_check) in Hacc;
    [|done|intros m e H; apply H].
  rewrite E in Hacc. apply accepts_at in Hacc.
  unfold forecast_check in Hacc; cbn [fst snd] in Hacc. rewrite Hf in Hacc.
  apply latest_run_some in Hacc as (p1 & [c0 r0] & p2 & -> & Hs & Hp2).
  unfold forecast_sets in Hs; cbn [fst snd] in Hs.
  destruct c0; try discriminate Hs. destruct r0 as [body|code]; [|discriminate].
  inversion Hs as [Ha].
  exists p1, ForecastName, PredictorArn, body, p2. repeat split; auto.
  intros n' p' body' Hin. by specialize (Hp2 _ Hin).
Qed.

(** X5: the path of every import job is s3://bucket/key for a bucket and
    key under which the notebook uploaded a file before. *)
Theorem import_jobs_read_uploaded_objects env :
  imports_read_uploads (trace (run_notebook env).2).
Proof.
  intros pre n d path role t r post E.
  assert (H := notebook_logged env import_check
                 ltac:(intros m e Hc; apply Hc) pre _ post E).
  destruct H as [H _]. cbn [fst snd] in H.
  apply uploaded_as_in in H as (b & k & Hin & ->).
  apply more_of_event in Hin as ([c' r'] & Hev & Hf).
  apply uploaded_more in Hf as (file & body & -> & ->). eauto 10.
Qed.

(** X6: an import job with a timestamp format loads into the dataset that
    was created as TARGET_TIME_SERIES, an import job without one into the
    dataset that was created as ITEM_METADATA. *)
Theorem import_jobs_match_dataset_types env :
  imports_match_datasets (trace (run_notebook env).2).
Proof.
  intros pre n d path role t r post E.
  assert (H := notebook_logged env import_check
                 ltac:(intros m e Hc; apply Hc) pre _ post E).
  destruct H as [_ H]. cbn [fst snd] in H.
  assert (Hmade : forall ty, In (Made ty d) (flat_map facts_of pre) ->
                             dataset_created pre ty d).
  { intros ty Hin. apply fact_of_event in Hin as ([c' r'] & Hev & Hf).
    apply made_fact in Hf as (dm & nm & f & s & body & -> & -> & Ha).
    exists dm, nm, f, s, body. done. }
  destruct t; by apply Hmade.
Qed.

(** X7: the destination of the export job is s3://bucket//name, with two
    slashes between the bucket the uploads went to and the name of the
    export job. *)
Theorem export_path_has_double_slash env :
  export_goes_to_bucket (trace (run_notebook env).2).
Proof.
  intros pre n f path role r post E.
  assert (H := notebook_logged env export_check
                 ltac:(intros m e Hc; apply Hc) pre _ post E).
  unfold export_check in H; cbn [fst snd] in H.
  apply exported_to_in in H as (b & k & Hin & ->).
  apply more_of_event in Hin as ([c' r'] & Hev & Hf).
  apply uploaded_more in Hf as (file & body & -> & ->). eauto 10.
Qed.

(** X8: the predictor is trained on a dataset group that was updated to
    hold exactly the target time series dataset and the item metadata
    dataset created before, and its forecast frequency is the data
    frequency that the target time series dataset was created with. *)
Theorem predictor_trained_on_both_datasets env :
  predictor_uses_both_datasets (trace (run_notebook env).2).
Proof.
  intros pre n alg h automl hpo g f r post E.
  assert (H := notebook_logged env predictor_check
                 ltac:(intros m e Hc; apply Hc) pre _ post E).
  unfold predictor_check in H; cbn [fst snd] in H.
  destruct H as (a_ts & a_meta & Hts & Hmeta & Hatt).
  assert (Hd : forall ty fr a, In (Declared ty fr a) (flat_map more_of pre) ->
                               dataset_declared pre ty fr a).
  { intros ty fr a Hin. apply more_of_event in Hin as ([c' r'] & Hev & Hf).
    apply declared_more in Hf as (dm & nm & s & body & -> & -> & Ha).
    exists dm, nm, s, body. done. }
  exists a_ts, a_meta. repeat split; auto.
  apply fact_of_event in Hatt as ([c' r'] & Hev & Hf).
  apply attached_fact in Hf as (body & -> & ->). eauto.
Qed.

(** X9: when the answer to a create call lacks the key of the identifier,
    the run ends with KeyError on that key, and the create call is the last
    call of the run. *)
Theorem missing_identifier_ends_run env pre c body post k key :
  trace (run_notebook env).2 = pre ++ (c, Reply body) :: post ->
  creates c = Some (k, key) ->
  assoc key body = None ->
  post = [] /\ (run_notebook env).1 = Raise (KeyError key).
Proof.
  intros E Hc Ha.
  destruct (halt_stops _ pre (c, Reply body) post (KeyError key)
              (notebook_halts env) E) as [Hp Hh].
  { unfold halt_step; cbn [fst snd]. by rewrite Hc, Ha. }
  split; [done|]. by apply notebook_raises.
Qed.

Lemma missing_identifier_ends_run_witness :
  (run_notebook no_predictor_arn_env).1 = Raise (KeyError "PredictorArn").
Proof.
  apply (missing_identifier_ends_run no_predictor_arn_env
           (take 21 (trace (run_notebook no_predictor_arn_env).2))
           (CreatePredictor "coldstart_demo_deep_ar_plus"
              "arn:aws:forecast:::algorithm/Deep_AR_Plus" 48 false false
              "arn:aws:forecast:us-west-2:1:dataset-group/9" "H")
           [] [] RPredictor "PredictorArn").
  - vm_compute. reflexivity.
  - reflexivity.
  - reflexivity.
Defined.



(** A refused upload ends the run with S3UploadFailedError, after the
    session, the clients, the role and the caller identity. *)
Lemma refused_upload_ends_run :
  (run_notebook refuses_upload_env).1 = Raise (S3UploadFailedError "AccessDenied")
  /\ List.length (trace (run_notebook refuses_upload_env).2) = 8.
Proof. vm_compute. split; reflexivity. Qed.

(** X11: the role that the import jobs and the export job pass to the
    service is the one that util.get_or_create_role_arn returned. *)
Theorem role_comes_from_helper env :
  role_from_helper (trace (run_notebook env).2).
Proof.
  intros pre c r post role E Hr.
  destruct (notebook_audited env) as [_ Hacc].
  apply (accepts_sim audit_role audit_step audit_check
           (latest_step role_sets) role_check) in Hacc;
    [|done|intros m e H; apply H].
  rewrite E in Hacc. apply accepts_at in Hacc.
  unfold role_check in Hacc; cbn [fst snd] in Hacc. rewrite Hr in Hacc.
  apply latest_run_some in Hacc as (p1 & [c0 r0] & p2 & -> & Hs & _).
  unfold role_sets in Hs; cbn [fst snd] in Hs.
  destruct c0; try discriminate Hs. destruct r0 as [body|code]; [|discriminate].
  inversion Hs as [Ha].
  exists body. split; [|done]. apply in_or_app. right. by left.
Qed.

(** X12: the export job is only created after a query whose answer held the
    predictions with their p10, p50 and p90 entries, as cell 89 reads them;
    an answer that lacks one of them ends the run before the export. *)
Theorem export_needs_full_query_answer env :
  export_after_full_query (trace (run_notebook env).2).
Proof.
  intros pre n f path role r post E.
  destruct (notebook_audited env) as [_ Hacc].
  apply (accepts_sim audit_query audit_step audit_check
           (latest_step query_sets) queried_check) in Hacc;
    [|done|intros m e H; apply H].
  rewrite E in Hacc. apply accepts_at in Hacc.
  unfold queried_check in Hacc; cbn [fst snd] in Hacc.
  apply latest_run_some in Hacc as (p1 & [c0 r0] & p2 & -> & Hs & _).
  unfold query_sets in Hs; cbn [fst snd] in Hs.
  destruct c0; try discriminate Hs. destruct r0 as [body|code]; [|discriminate].
  inversion Hs as [Hq].
  exists ForecastArn, Filters, body. split; [|done].
  apply in_or_app. right. by left.
Qed.

